(** * Replication of bounty issues into the internal tracker

    A shallow embedding of [.github/actions/replicate/replicate.ts]: the
    classifier [generateInternalIssueContentFromPayload], the mirror creator
    [createInternalIssue], the notifier [commentOriginalIssue], the duplicate
    check [checkDuplicates], the first-submission detector
    [isFirstSubmission] and the orchestrator [run].

    Asynchronous functions are sequential here: every call of the source is
    awaited before the next statement runs, except the last call of [run],
    which nothing follows.  Calls of [core.debug] only write to the log and
    are left out. *)

From Stdlib Require Import ZArith String Ascii List.
From stdpp Require Import base strings gmap list pretty.

Open Scope string_scope.
Open Scope list_scope.
Open Scope Z_scope.

(** ** JavaScript values *)

Module JS.

(** The values a [string | boolean] variable holds. *)
Inductive value : Type :=
| Str (s : string)
| Bool (b : bool).

(** [ToBoolean]: the empty string, [0], [undefined] and [false] are falsy. *)
Definition truthy_string (s : string) : bool := negb (String.eqb s "").

Definition truthy_number (n : Z) : bool := negb (n =? 0).

Definition truthy_opt {A : Type} (t : A -> bool) (o : option A) : bool :=
  match o with
  | Some a => t a
  | None => false
  end.

Definition truthy (v : value) : bool :=
  match v with
  | Str s => truthy_string s
  | Bool b => b
  end.

(** [a || b] keeps [a] when it is truthy. *)
Definition or (a b : value) : value := if truthy a then a else b.

Definition or_string (a b : string) : string :=
  if truthy_string a then a else b.

(** [s.split(sep)] for a one-character separator: never an empty array. *)
Fixpoint split (sep : ascii) (s : string) : list string :=
  match s with
  | EmptyString => [EmptyString]
  | String c rest =>
      if Ascii.eqb c sep then EmptyString :: split sep rest
      else match split sep rest with
           | [] => [String c EmptyString]
           | w :: ws => String c w :: ws
           end
  end.

(** [const [a, b] = xs]: a missing element is [undefined]. *)
Definition destructure2 {A : Type} (xs : list A) : option A * option A :=
  (xs !! 0%nat, xs !! 1%nat).

(** [xs.includes(x)] on an array of strings. *)
Definition includes (xs : list string) (x : string) : bool :=
  existsb (String.eqb x) xs.

(** [hay.includes(needle)] on strings. *)
Fixpoint str_includes (needle hay : string) : bool :=
  String.prefix needle hay ||
  match hay with
  | EmptyString => false
  | String _ rest => str_includes needle rest
  end.

(** A thrown [Error]. *)
Record error : Type := Error { message : string }.

(** Strings are held as the bytes of their UTF-8 encoding.  The code points
    [s.trim()] removes: the white space TAB, VT, FF, SP, NBSP, ZWNBSP and
    the other space separators (U+1680, U+2000 to U+200A, U+202F, U+205F,
    U+3000), and the line terminators LF, CR, U+2028, U+2029. *)
Definition white_space : list string :=
  [ String "009" ""; String "010" ""; String "011" ""; String "012" "";
    String "013" ""; String "032" "";
    String "194" (String "160" "");
    String "225" (String "154" (String "128" "")) ] ++
  map (fun k => String "226" (String "128" (String (ascii_of_nat k) "")))
      (seq 128 11) ++
  [ String "226" (String "128" (String "168" ""));
    String "226" (String "128" (String "169" ""));
    String "226" (String "128" (String "175" ""));
    String "226" (String "129" (String "159" ""));
    String "227" (String "128" (String "128" ""));
    String "239" (String "187" (String "191" "")) ].

(** The rest of [s] behind the prefix [p], when [s] starts with [p]. *)
Fixpoint strip_prefix (p s : string) : option string :=
  match p with
  | EmptyString => Some s
  | String a p' =>
      match s with
      | EmptyString => None
      | String b s' => if Ascii.eqb a b then strip_prefix p' s' else None
      end
  end.

(** The rest of [s] behind one leading code point of [ws]. *)
Definition strip_one (ws : list string) (s : string) : option string :=
  fold_right (fun w rest =>
                match strip_prefix w s with
                | Some s' => Some s'
                | None => rest
                end) None ws.

(** Strips leading code points of [ws], at most [fuel] of them. *)
Fixpoint strip_leading (ws : list string) (fuel : nat) (s : string) : string :=
  match fuel with
  | O => s
  | S fuel' =>
      match strip_one ws s with
      | Some s' => strip_leading ws fuel' s'
      | None => s
      end
  end.

Definition rev_string (s : string) : string :=
  string_of_list_ascii (rev (list_ascii_of_string s)).

Definition trimStart (s : string) : string :=
  strip_leading white_space (String.length s) s.

Definition trimEnd (s : string) : string :=
  rev_string
    (strip_leading (map rev_string white_space) (String.length s)
       (rev_string s)).

(** [s.trim()] *)
Definition trim (s : string) : string := trimEnd (trimStart s).

End JS.

(** ** Data model *)

(** [payload.issue.labels[i]]. *)
Record Label : Type := { label_name : string }.

(** [payload.issue.user]. *)
Record User : Type := { login : string; user_html_url : string }.

(** [payload.issue]; [user], [html_url] and [body] may be missing. *)
Record PayloadIssue : Type := {
  number : Z;
  issue_title : string;
  issue_body : option string;
  html_url : option string;
  user : option User;
  issue_labels : list Label
}.

Record Owner : Type := { owner_login : string }.

(** [payload.repository]. *)
Record PayloadRepository : Type := { owner : Owner; repo_name : string }.

(** [WebhookPayload], the fields the action reads. *)
Record WebhookPayload : Type := {
  issue : option PayloadIssue;
  repository : option PayloadRepository
}.

(** [export type Issue = {title: string, body: string, labels: string[]}] *)
Record Issue : Type := { title : string; body : string; labels : list string }.

Definition BOUNTY_LABELS : list string := ["All For One"; "The Bug Slayer"].

Definition COMMENT_TASK_LIST : string := "## Task List
- [ ] Initial assessment - Please record your decision in the comment below
  - [ ] CodeQL
  - [ ] Security Lab
- [ ] CodeQL: Generate result set and post the URL in the comment
- [ ] Security Lab assessment: 
  - [ ] Assess the Vulnerability Impact, the Vulnerability Scope, and the False Positive ratio based on the provided CodeQL result set
  - [ ] Provide feedback to the author in the PR
- [ ] CodeQL assessment:
  - [ ] Assess the Code Maturity and the Documentation
  - [ ] Provide feedback to the author in the PR
  - [ ] Merge the PR into the experimental folder
- [ ] Score - Both teams fill the score table according to the version of the PR merged into the repository
- [ ] Bounty Payment
".

Definition COMMENT_SCORING : string := "## Scoring
| Criterion | Score|
|--- | --- |
| Vulnerability Impact | | 
| Vulnerability Scope | | 
| False Positive | | 
| Code Maturity | | 
| Documentation | | 

- [ ] Reject
- [ ] Reject with thank you reward
- [ ] Reject with encouragement swag (Decision: Dev Advocacy)
- [ ] Accept
".

Definition COMMENT_FIRST_SUBMISSION : string := "## :tada: First submission for this user :tada:".

(** ** Classifier *)

(** The three variables the [forEach] callback updates. *)
Record ScanState : Type := {
  scan_labels : list string;
  bountyIssue : bool;
  bountyType : string
}.

Definition scan_init : ScanState :=
  {| scan_labels := []; bountyIssue := false; bountyType := "" |}.

(** One call of the callback of [issue.labels.forEach]. *)
Definition scan_step (st : ScanState) (element : Label) : ScanState :=
  let pushed := scan_labels st ++ [label_name element] in
  if negb (bountyIssue st) then
    let found := JS.includes BOUNTY_LABELS (label_name element) in
    {| scan_labels := pushed;
       bountyIssue := found;
       bountyType := if found then label_name element else bountyType st |}
  else
    {| scan_labels := pushed;
       bountyIssue := bountyIssue st;
       bountyType := bountyType st |}.

Definition scan (ls : list Label) : ScanState := fold_left scan_step ls scan_init.

Definition newline : string := String (ascii_of_nat 10) EmptyString.

Definition issue_body_text (i : PayloadIssue) (u : User) : string :=
  "Original external [issue](" +:+ default "undefined" (html_url i) +:+ ")"
  +:+ newline +:+ newline
  +:+ "Sumitted by [" +:+ login u +:+ "](" +:+ user_html_url u +:+ ")"
  +:+ newline +:+ newline
  +:+ match issue_body i with
      | Some b => if JS.truthy_string b then b else ""
      | None => ""
      end.

Definition generateInternalIssueContentFromPayload (payload : WebhookPayload)
  : option Issue :=
  match issue payload with
  | None => None
  | Some i =>
      match user i with
      | None => None
      | Some u =>
          if negb (JS.truthy_opt JS.truthy_string (html_url i)) then None
          else
            let st := scan (issue_labels i) in
            if negb (bountyIssue st) then None
            else Some {| title := "[" +:+ bountyType st +:+ "] " +:+ issue_title i;
                         body := issue_body_text i u;
                         labels := scan_labels st |}
      end
  end.

(** ** Effects: calls to the tracker, exceptions, local variables *)

(** A call that leaves the action.  [ListIssues] is the listing behind
    [getIssueList]; the other two are the Octokit calls, with the token the
    client was built from. *)
Inductive Event : Type :=
| ListIssues (owner repo : option string) (token : option string)
    (includeClosed : bool)
| CreateIssue (token : string) (owner repo : option string)
    (title body : string) (labels : list string)
| CreateComment (token : string) (owner repo : option string)
    (issue_number : Z) (body : string).

(** How a statement ends: normally with a value, or by throwing. *)
Inductive Completion (A : Type) : Type :=
| Normal (a : A)
| Throw (e : JS.error).

Arguments Normal {A} a.
Arguments Throw {A} e.

(** A computation over local variables of type [S]: the calls it made, the
    variables afterwards (kept when it throws) and its completion. *)
Definition M (S A : Type) : Type := S -> list Event * S * Completion A.

Definition events {S A : Type} (r : list Event * S * Completion A) : list Event :=
  r.1.1.

Definition completion {S A : Type} (r : list Event * S * Completion A)
  : Completion A := r.2.

Section Monad.
Context {S : Type}.

Definition ret {A : Type} (a : A) : M S A := fun s => ([], s, Normal a).

Definition bind {A B : Type} (m : M S A) (k : A -> M S B) : M S B :=
  fun s =>
    match m s with
    | (t, s', Normal a) =>
        match k a s' with
        | (t', s'', c) => (t ++ t', s'', c)
        end
    | (t, s', Throw e) => (t, s', Throw e)
    end.

Definition throw {A : Type} (e : JS.error) : M S A :=
  fun s => ([], s, Throw e).

(** [try { m } catch (error) { h error }] *)
Definition try_catch {A : Type} (m : M S A) (h : JS.error -> M S A) : M S A :=
  fun s =>
    match m s with
    | (t, s', Normal a) => (t, s', Normal a)
    | (t, s', Throw e) =>
        match h e s' with
        | (t', s'', c) => (t ++ t', s'', c)
        end
    end.

(** A call to the outside: recorded, then it completes as the tracker says. *)
Definition call {A : Type} (e : Event) (r : Completion A) : M S A :=
  fun s => ([e], s, r).

Definition get : M S S := fun s => ([], s, Normal s).

Definition put (s' : S) : M S unit := fun _ => ([], s', Normal tt).

(** A block with its own local variables, starting from [init]. *)
Definition scoped {L A : Type} (init : L) (m : M L A) : M S A :=
  fun s =>
    match m init with
    | (t, _, c) => (t, s, c)
    end.

End Monad.

Notation "x <- m ;; k" := (bind m (fun x => k))
  (at level 100, m at next level, right associativity).
Notation "m ;;; k" := (bind m (fun _ => k))
  (at level 100, right associativity).

(** ** The world of one run *)

(** An existing issue as the listing returns it. *)
Record GitHubIssue : Type := {
  gh_number : Z;
  gh_title : string;
  gh_body : string;
  gh_author : string
}.

(** What the action reads and what the tracker answers during one run.
    [input] holds the inputs of the action as the workflow gives them;
    [issues_create] and
    [issues_createComment] are the answers of [octokit.issues.create] and
    [octokit.issues.createComment]: the number of the new issue, the url of
    the new comment, or a thrown error. *)
Record World : Type := {
  env : gmap string string;
  input : gmap string string;
  context_payload : WebhookPayload;
  issues_create :
    string -> option string -> option string -> string -> string ->
    list string -> Completion Z;
  issues_createComment :
    string -> option string -> option string -> Z -> string ->
    Completion string
}.

(** The functions imported from [./issues], whose file is not part of the
    sources at hand: they are parameters of the development.  Their types
    follow the spec: [getIssueList owner repo token includeClosed] lists the
    issues of a repository and is [None] when the list could not be
    retrieved; [internalIssueAlreadyCreated] returns the reference of a
    mirror or none; [isUserAlreadyParticipant] returns a boolean.  None of
    them throws. *)
Class IssuesModule : Type := {
  getIssueList :
    option string -> option string -> option string -> bool ->
    option (list GitHubIssue);
  internalIssueAlreadyCreated :
    option string -> list GitHubIssue -> option Z;
  isUserAlreadyParticipant :
    option string -> option (list GitHubIssue) -> bool
}.

(** ** The action *)

Section Replicate.
Context (W : World) `{IssuesModule}.

(** [core.getInput(name)]: the value of the input, the empty string when
    the input is not set, trimmed. *)
Definition getInput (name : string) : string :=
  JS.trim (default "" (input W !! name)).

(** [octokit.issues.create] and [octokit.issues.createComment] on a client
    built from [tok]; [getIssueList] of [./issues]. *)
Definition octokit_issues_create {S : Type} (tok : string)
    (owner repo : option string) (title body : string) (labels : list string)
  : M S Z :=
  call (CreateIssue tok owner repo title body labels)
       (issues_create W tok owner repo title body labels).

Definition octokit_issues_createComment {S : Type} (tok : string)
    (owner repo : option string) (issue_number : Z) (body : string)
  : M S string :=
  call (CreateComment tok owner repo issue_number body)
       (issues_createComment W tok owner repo issue_number body).

Definition await_getIssueList {S : Type} (owner repo token : option string)
    (includeClosed : bool) : M S (option (list GitHubIssue)) :=
  call (ListIssues owner repo token includeClosed)
       (Normal (getIssueList owner repo token includeClosed)).

(** [const internalRepo = core.getInput('internal_repo') || '/']
    [const [owner, repo] = internalRepo.split('/')] *)
Definition internal_repo : option string * option string :=
  JS.destructure2 (JS.split "/" (JS.or_string (getInput "internal_repo") "/")).

(** [payload.issue?.html_url] *)
Definition payload_issue_html_url (payload : WebhookPayload) : option string :=
  match issue payload with
  | None => None
  | Some i => html_url i
  end.

(** [payload.issue?.user.login]: [undefined] without an issue, a
    [TypeError] when the issue has no user. *)
Definition payload_issue_user_login (payload : WebhookPayload)
  : Completion (option string) :=
  match issue payload with
  | None => Normal None
  | Some i =>
      match user i with
      | None => Throw (JS.Error "Cannot read property 'login' of undefined")
      | Some u => Normal (Some (login u))
      end
  end.

Definition isFirstSubmission {S : Type} (payload : WebhookPayload)
    (token : option string) : M S bool :=
  match repository payload with
  | None => ret false
  | Some repository =>
      allSubmissions <-
        await_getIssueList (Some (owner_login (owner repository)))
                           (Some (repo_name repository)) token false ;;
      match payload_issue_user_login payload with
      | Throw e => throw e
      | Normal author =>
          ret (negb (isUserAlreadyParticipant author allSubmissions))
      end
  end.

Definition createInternalIssue {S : Type} (payload : WebhookPayload)
    (issue : Issue) : M S (option Z) :=
  let internalRepoAccessToken := env W !! "INT_REPO_TOKEN" in
  let token := env W !! "GITHUB_TOKEN" in
  (* let internal_ref: number | undefined = undefined *)
  scoped (None : option Z)
    (if negb (JS.truthy_opt JS.truthy_string internalRepoAccessToken)
     then ret None
     else
       try_catch
         (let octokit := default "" internalRepoAccessToken in
          let '(owner, repo) := internal_repo in
          created <-
            octokit_issues_create octokit owner repo
              (title issue) (body issue) (labels issue) ;;
          (* internal_ref = issueResponse.data.number *)
          put (Some created) ;;;
          octokit_issues_createComment octokit owner repo created
            COMMENT_TASK_LIST ;;;
          octokit_issues_createComment octokit owner repo created
            COMMENT_SCORING ;;;
          first <- isFirstSubmission payload token ;;
          if first then
            octokit_issues_createComment octokit owner repo created
              COMMENT_FIRST_SUBMISSION ;;;
            ret tt
          else ret tt)
         (fun error => ret tt) ;;;
       (* return internal_ref *)
       get).

Definition acknowledgement (internal_issue : Z) : string :=
  "Thanks for submitting this bounty :heart:!
            Your submission is tracked internally with the issue reference " +:+ pretty internal_issue +:+ ".".

Definition commentOriginalIssue {S : Type} (payload : WebhookPayload)
    (internal_issue : Z) : M S unit :=
  let repository := repository payload in
  let external_issue :=
    match issue payload with
    | Some i => number i
    | None => 0
    end in
  let token := env W !! "GITHUB_TOKEN" in
  if negb (JS.truthy_opt JS.truthy_string token) then ret tt
  else
    match repository with
    | None => ret tt
    | Some repository =>
        if external_issue <=? 0 then ret tt
        else
          try_catch
            (octokit_issues_createComment (default "" token)
               (Some (owner_login (owner repository)))
               (Some (repo_name repository))
               external_issue (acknowledgement internal_issue) ;;;
             ret tt)
            (fun error => ret tt)
    end.

Definition checkDuplicates {S : Type} (payload : WebhookPayload) : M S bool :=
  let internalRepoAccessToken := env W !! "INT_REPO_TOKEN" in
  let '(owner, repo) := internal_repo in
  internalIssues <-
    await_getIssueList owner repo internalRepoAccessToken false ;;
  match internalIssues with
  | None => ret true
  | Some internalIssues =>
      let ref :=
        internalIssueAlreadyCreated (payload_issue_html_url payload)
          internalIssues in
      if JS.truthy_opt JS.truthy_number ref then ret true else ret false
  end.

(** [const existingIssue = core.getInput('existingIssue') || true] *)
Definition existingIssue : JS.value :=
  JS.or (JS.Str (getInput "existingIssue")) (JS.Bool true).

Definition run {S : Type} : M S unit :=
  let payload := context_payload W in
  match generateInternalIssueContentFromPayload payload with
  | None => ret tt
  | Some internalIssue =>
      (* existingIssue && await checkDuplicates(payload) *)
      duplicate <-
        (if JS.truthy existingIssue then checkDuplicates payload
         else ret false) ;;
      if duplicate then ret tt
      else
        internal_ref <- createInternalIssue payload internalIssue ;;
        if negb (JS.truthy_opt JS.truthy_number internal_ref) then ret tt
        else
          if negb (JS.truthy existingIssue) then
            commentOriginalIssue payload (default 0 internal_ref)
          else ret tt
  end.

End Replicate.

(** ** The helpers of [./issues], from the specification *)

(** Modelled from the spec: [internalIssueAlreadyCreated] of [./issues],
    which is missing from the sources.  An existing mirror is a duplicate of
    the target url when its body contains the url; the first such mirror's
    reference is returned, none when no mirror matches. *)
Definition spec_internalIssueAlreadyCreated (externalIssueUrl : option string)
    (issues : list GitHubIssue) : option Z :=
  match externalIssueUrl with
  | None => None
  | Some url =>
      gh_number <$> find (fun i => JS.str_includes url (gh_body i)) issues
  end.

(** Modelled from the spec: [isUserAlreadyParticipant] of [./issues], which
    is missing from the sources.  The first-submission detector is its
    negation: an unavailable listing counts as no prior submission found; an
    absent identity cannot be confirmed as a first submission; otherwise the
    user participates when some entry of the listing is authored by them.
    The spec does not order the first two cases; the unavailable listing is
    tested first, as the spec states that case without a condition. *)
Definition spec_isUserAlreadyParticipant (author : option string)
    (issues : option (list GitHubIssue)) : bool :=
  match issues with
  | None => false
  | Some l =>
      match author with
      | None => true
      | Some a => existsb (fun i => String.eqb (gh_author i) a) l
      end
  end.

(** The issues module with the two helpers of the spec over a listing. *)
Definition spec_issues
    (listing : option string -> option string -> option string -> bool ->
               option (list GitHubIssue)) : IssuesModule :=
  {| getIssueList := listing;
     internalIssueAlreadyCreated := spec_internalIssueAlreadyCreated;
     isUserAlreadyParticipant := spec_isUserAlreadyParticipant |}.

(** ** Observations on a run *)

Definition is_bounty (l : Label) : bool :=
  JS.includes BOUNTY_LABELS (label_name l).

Definition set_labels (ls : list Label) (i : PayloadIssue) : PayloadIssue :=
  {| number := number i;
     issue_title := issue_title i;
     issue_body := issue_body i;
     html_url := html_url i;
     user := user i;
     issue_labels := ls |}.

(** A call that changes a tracker: a new issue or a new comment. *)
Definition is_mutation (e : Event) : bool :=
  match e with
  | ListIssues _ _ _ _ => false
  | CreateIssue _ _ _ _ _ _ => true
  | CreateComment _ _ _ _ _ => true
  end.

Definition is_listing (e : Event) : bool := negb (is_mutation e).

(** The comment [commentOriginalIssue] posts, whatever the reference. *)
Definition is_acknowledgement (e : Event) : bool :=
  match e with
  | CreateComment _ _ _ _ body =>
      String.prefix "Thanks for submitting this bounty" body
  | _ => false
  end.

Definition acknowledged (t : list Event) : bool := existsb is_acknowledgement t.

(** The bodies of the comments a trace attached, in order. *)
Definition comment_bodies (t : list Event) : list string :=
  omap (fun e => match e with
                 | CreateComment _ _ _ _ body => Some body
                 | _ => None
                 end) t.

(** A valid event: an issue with a user and a non-empty url. *)
Definition valid_event (payload : WebhookPayload) (i : PayloadIssue) (u : User)
  : Prop :=
  issue payload = Some i /\ user i = Some u /\
  JS.truthy_opt JS.truthy_string (html_url i) = true.

(** Every call a computation makes satisfies [P], whatever the variables
    it starts from. *)
Definition emits {S A : Type} (P : Event -> Prop) (m : M S A) : Prop :=
  forall s, Forall P (events (m s)).

Global Instance Event_eq_dec : EqDecision Event.
Proof. solve_decision. Defined.

Section Observations.
Context (W : World).

(** The listing [checkDuplicates] asks for. *)
Definition duplicate_check_call : Event :=
  ListIssues (internal_repo W).1 (internal_repo W).2
    (env W !! "INT_REPO_TOKEN") false.

(** The duplicate check is the first call of a run that makes it. *)
Definition duplicate_checked (t : list Event) : bool :=
  bool_decide (head t = Some duplicate_check_call).

(** What the tracker answers to the creation of the mirror, as the
    reference the caller gets: none without a usable credential and none
    when the creation throws. *)
Definition creation_reference (draft : Issue) : option Z :=
  match env W !! "INT_REPO_TOKEN" with
  | None => None
  | Some tok =>
      if JS.truthy_string tok then
        match issues_create W tok (internal_repo W).1 (internal_repo W).2
                (title draft) (body draft) (labels draft) with
        | Normal n => Some n
        | Throw _ => None
        end
      else None
  end.

(** The listing [isFirstSubmission] asks for when [createInternalIssue]
    calls it on an event of repository [r]. *)
Definition submissions_call (r : PayloadRepository) : Event :=
  ListIssues (Some (owner_login (owner r))) (Some (repo_name r))
    (env W !! "GITHUB_TOKEN") false.

(** The tracker accepts a comment on issue [n] of the internal repository. *)
Definition comment_accepted (tok : string) (n : Z) (text : string) : Prop :=
  exists url,
    issues_createComment W tok (internal_repo W).1 (internal_repo W).2 n text
    = Normal url.

End Observations.

(** ** Further observations *)

(** No character of [s] is the separator. *)
Definition free_of (sep : ascii) (s : string) : bool :=
  forallb (fun c => negb (Ascii.eqb c sep)) (list_ascii_of_string s).


(** A call that creates an issue or a comment in repository [r]. *)
Definition writes_to (r : PayloadRepository) (e : Event) : bool :=
  match e with
  | ListIssues _ _ _ _ => false
  | CreateIssue _ o n _ _ _ | CreateComment _ o n _ _ =>
      bool_decide ((o, n) = (Some (owner_login (owner r)), Some (repo_name r)))
  end.

(** The calls of [createInternalIssue] when every call is accepted, for a
    new issue numbered [n]; [first] is the outcome of the first-submission
    check and [listing] the calls that check made. *)
Definition mirror_calls (W : World) (tok : string) (draft : Issue) (n : Z)
    (listing : list Event) (first : Completion bool) : list Event :=
  [ CreateIssue tok (internal_repo W).1 (internal_repo W).2
      (title draft) (body draft) (labels draft);
    CreateComment tok (internal_repo W).1 (internal_repo W).2 n
      COMMENT_TASK_LIST;
    CreateComment tok (internal_repo W).1 (internal_repo W).2 n
      COMMENT_SCORING ] ++
  listing ++
  match first with
  | Normal true =>
      [ CreateComment tok (internal_repo W).1 (internal_repo W).2 n
          COMMENT_FIRST_SUBMISSION ]
  | _ => []
  end.

(** ** Concrete runs *)

Module Examples.

Definition alice : User :=
  {| login := "alice"; user_html_url := "https://github.com/alice" |}.

Definition U1 : string := "https://github.com/github/securitylab/issues/1".

(** The event of the spec's scenario A. *)
Definition heap_overflow : PayloadIssue :=
  {| number := 1;
     issue_title := "Heap overflow";
     issue_body := Some "details";
     html_url := Some U1;
     user := Some alice;
     issue_labels := [ {| label_name := "All For One" |};
                       {| label_name := "bug" |} ] |}.

Definition securitylab : PayloadRepository :=
  {| owner := {| owner_login := "github" |}; repo_name := "securitylab" |}.

Definition scenario_A : WebhookPayload :=
  {| issue := Some heap_overflow; repository := Some securitylab |}.


Definition no_repository : WebhookPayload :=
  {| issue := Some heap_overflow; repository := None |}.

Definition draft_A : Issue :=
  {| title := "[All For One] Heap overflow";
     body := issue_body_text heap_overflow alice;
     labels := ["All For One"; "bug"] |}.

Definition both_tokens : gmap string string :=
  <["INT_REPO_TOKEN" := "int-secret"]> (<["GITHUB_TOKEN" := "ext-secret"]> ∅).

Definition external_token_only : gmap string string :=
  <["GITHUB_TOKEN" := "ext-secret"]> ∅.

Definition internal_input : gmap string string :=
  <["internal_repo" := "github/securitylab-internal"]> ∅.

Definition created (n : Z) : string -> option string -> option string ->
    string -> string -> list string -> Completion Z :=
  fun _ _ _ _ _ _ => Normal n.

Definition commented : string -> option string -> option string -> Z ->
    string -> Completion string :=
  fun _ _ _ _ _ => Normal "https://api.github.com/comments/1".

Definition comment_refused : string -> option string -> option string -> Z ->
    string -> Completion string :=
  fun _ _ _ _ _ => Throw (JS.Error "Validation Failed").

(** Every call of the tracker succeeds; the new issue gets number 7. *)
Definition healthy : World :=
  {| env := both_tokens;
     input := internal_input;
     context_payload := scenario_A;
     issues_create := created 7;
     issues_createComment := commented |}.

(** The issue is created, then every comment is refused. *)
Definition comments_fail : World :=
  {| env := both_tokens;
     input := internal_input;
     context_payload := scenario_A;
     issues_create := created 7;
     issues_createComment := comment_refused |}.

(** A run without the credential of the internal tracker. *)
Definition forked : World :=
  {| env := external_token_only;
     input := internal_input;
     context_payload := scenario_A;
     issues_create := created 7;
     issues_createComment := commented |}.

(** The caller says the issue exists already. *)
Definition update_path : World :=
  {| env := both_tokens;
     input := <["existingIssue" := "true"]> internal_input;
     context_payload := scenario_A;
     issues_create := created 7;
     issues_createComment := commented |}.

Definition unavailable : option string -> option string -> option string ->
    bool -> option (list GitHubIssue) :=
  fun _ _ _ _ => None.

(** Both repositories are reachable and hold no issue. *)
Definition empty_listing : option string -> option string -> option string ->
    bool -> option (list GitHubIssue) :=
  fun _ _ _ _ => Some [].

(** The external repository holds an earlier submission of alice; the
    internal one cannot be listed. *)
Definition alice_returns : option string -> option string -> option string ->
    bool -> option (list GitHubIssue) :=
  fun owner repo _ _ =>
    if bool_decide (owner = Some "github" /\ repo = Some "securitylab")
    then Some [ {| gh_number := 3; gh_title := "Earlier";
                   gh_body := "text"; gh_author := "alice" |} ]
    else None.

(** The external repository holds no issue; the internal one holds the
    mirror of an earlier submission. *)
Definition internal_mirrors : option string -> option string ->
    option string -> bool -> option (list GitHubIssue) :=
  fun owner repo _ _ =>
    if bool_decide (repo = Some "securitylab-internal")
    then Some [ {| gh_number := 5; gh_title := "[All For One] Earlier";
                   gh_body := "Original external [issue](" +:+ U1 +:+ ")";
                   gh_author := "robot" |} ]
    else Some [].

(** The tracker refuses the new issue. *)
Definition creation_refused : string -> option string -> option string ->
    string -> string -> list string -> Completion Z :=
  fun _ _ _ _ _ _ => Throw (JS.Error "Not Found").

Definition creation_fails : World :=
  {| env := both_tokens;
     input := internal_input;
     context_payload := scenario_A;
     issues_create := creation_refused;
     issues_createComment := commented |}.

(** The task-list comment is accepted, every other comment is refused. *)
Definition only_task_list : string -> option string -> option string -> Z ->
    string -> Completion string :=
  fun _ _ _ _ text =>
    if String.eqb text COMMENT_TASK_LIST
    then Normal "https://api.github.com/comments/1"
    else Throw (JS.Error "Validation Failed").

Definition scoring_fails : World :=
  {| env := both_tokens;
     input := internal_input;
     context_payload := scenario_A;
     issues_create := created 7;
     issues_createComment := only_task_list |}.

(** An event without a bounty label. *)
Definition enhancement : WebhookPayload :=
  {| issue := Some (set_labels [ {| label_name := "enhancement" |} ]
                      heap_overflow);
     repository := Some securitylab |}.

Definition not_a_bounty : World :=
  {| env := both_tokens;
     input := internal_input;
     context_payload := enhancement;
     issues_create := created 7;
     issues_createComment := commented |}.

(** A run whose input [internal_repo] is not set. *)
Definition unconfigured : World :=
  {| env := both_tokens;
     input := ∅;
     context_payload := scenario_A;
     issues_create := created 7;
     issues_createComment := commented |}.

(** A run whose input [internal_repo] names no owner. *)
Definition nameless : World :=
  {| env := both_tokens;
     input := <["internal_repo" := "securitylab"]> ∅;
     context_payload := scenario_A;
     issues_create := created 7;
     issues_createComment := commented |}.

(** A run whose input [internal_repo] has white space around it. *)
Definition padded : World :=
  {| env := both_tokens;
     input := <["internal_repo" := "  github/securitylab-internal "]> ∅;
     context_payload := scenario_A;
     issues_create := created 7;
     issues_createComment := commented |}.

(** A run whose input [internal_repo] is two spaces. *)
Definition blank : World :=
  {| env := both_tokens;
     input := <["internal_repo" := "  "]> ∅;
     context_payload := scenario_A;
     issues_create := created 7;
     issues_createComment := commented |}.

(** A run whose internal repository is the repository of the event. *)
Definition self_mirroring : World :=
  {| env := both_tokens;
     input := <["internal_repo" := "github/securitylab"]> ∅;
     context_payload := scenario_A;
     issues_create := created 7;
     issues_createComment := commented |}.

(** An event without an issue. *)
Definition unnumbered : WebhookPayload :=
  {| issue := None; repository := Some securitylab |}.

End Examples.

(** * Properties *)

(** ** The label scan *)

Section Scan.

Lemma scan_step_labels st l :
  scan_labels (scan_step st l) = scan_labels st ++ [label_name l].
Proof. unfold scan_step. destruct (bountyIssue st); reflexivity. Qed.

(** Once a bounty label was seen, the rest of the labels is only copied. *)
Lemma scan_after_match ls : forall st,
  bountyIssue st = true ->
  fold_left scan_step ls st =
    {| scan_labels := scan_labels st ++ map label_name ls;
       bountyIssue := true;
       bountyType := bountyType st |}.
Proof.
  induction ls as [|l ls IH]; intros [acc b ty] Hb; simpl in *; subst b.
  - now rewrite app_nil_r.
  - rewrite IH by reflexivity. simpl. now rewrite <- app_assoc.
Qed.

(** Labels outside the bounty set leave the category undecided. *)
Lemma scan_before_match pre : forall st,
  bountyIssue st = false ->
  forallb (fun l => negb (is_bounty l)) pre = true ->
  fold_left scan_step pre st =
    {| scan_labels := scan_labels st ++ map label_name pre;
       bountyIssue := false;
       bountyType := bountyType st |}.
Proof.
  induction pre as [|l pre IH]; intros st Hb Hpre; cbn [fold_left map].
  - rewrite app_nil_r. destruct st; simpl in *; now subst.
  - cbn [forallb] in Hpre. apply andb_prop in Hpre as [Hl Hpre].
    apply negb_true_iff in Hl.
    assert (Hstep : scan_step st l =
              {| scan_labels := scan_labels st ++ [label_name l];
                 bountyIssue := false;
                 bountyType := bountyType st |}).
    { unfold scan_step. rewrite Hb. cbn [negb].
      fold (is_bounty l). now rewrite Hl. }
    rewrite Hstep, IH by (reflexivity || assumption).
    cbn [scan_labels bountyType]. now rewrite <- app_assoc.
Qed.

Lemma scan_first_match pre c post :
  forallb (fun l => negb (is_bounty l)) pre = true ->
  is_bounty c = true ->
  scan (pre ++ c :: post) =
    {| scan_labels := map label_name (pre ++ c :: post);
       bountyIssue := true;
       bountyType := label_name c |}.
Proof.
  intros Hpre Hc. unfold scan. rewrite fold_left_app.
  rewrite (scan_before_match pre scan_init) by (reflexivity || assumption).
  cbn [fold_left scan_init scan_labels bountyType app].
  assert (Hstep : forall acc,
            scan_step {| scan_labels := acc; bountyIssue := false;
                         bountyType := "" |} c =
              {| scan_labels := acc ++ [label_name c];
                 bountyIssue := true;
                 bountyType := label_name c |}).
  { intros acc. unfold scan_step. cbn [bountyIssue negb scan_labels].
    fold (is_bounty c). now rewrite Hc. }
  rewrite Hstep, scan_after_match by reflexivity.
  cbn [scan_labels bountyType]. rewrite map_app, <- app_assoc. reflexivity.
Qed.

(** A list with a bounty label splits at its first bounty label. *)
Lemma first_bounty_split ls :
  existsb is_bounty ls = true ->
  exists pre c post,
    ls = pre ++ c :: post /\
    forallb (fun l => negb (is_bounty l)) pre = true /\
    is_bounty c = true /\
    find is_bounty ls = Some c.
Proof.
  induction ls as [|l ls IH]; simpl; [discriminate|].
  destruct (is_bounty l) eqn:Hl.
  - intros _. exists [], l, ls. simpl. now rewrite Hl.
  - simpl. intros Hex. destruct (IH Hex) as (pre & c & post & -> & Hpre & Hc & Hf).
    exists (l :: pre), c, post. simpl. rewrite Hl. simpl. auto.
Qed.

End Scan.

(** ** The classifier *)

Lemma classifier_at_first_match payload i u pre c post :
  valid_event payload i u ->
  issue_labels i = pre ++ c :: post ->
  forallb (fun l => negb (is_bounty l)) pre = true ->
  is_bounty c = true ->
  generateInternalIssueContentFromPayload payload =
    Some {| title := "[" +:+ label_name c +:+ "] " +:+ issue_title i;
            body := issue_body_text i u;
            labels := map label_name (issue_labels i) |}.
Proof.
  intros (Hi & Hu & Hurl) Hls Hpre Hc.
  unfold generateInternalIssueContentFromPayload.
  rewrite Hi, Hu, Hurl. cbn [negb].
  rewrite Hls, (scan_first_match pre c post Hpre Hc).
  reflexivity.
Qed.

(** C5: for a valid event with a bounty label, the draft's title is
    [[c] t] with [c] the first label of the list that is in the bounty set
    and [t] the title of the event; whatever labels follow that first match
    ([post'] below), the title stays the same; the draft's labels are the
    names of all labels of the event. *)
Theorem classifier_first_bounty_label_wins
    (payload : WebhookPayload) (i : PayloadIssue) (u : User) :
  valid_event payload i u ->
  existsb is_bounty (issue_labels i) = true ->
  exists pre c post,
    issue_labels i = pre ++ c :: post /\
    forallb (fun l => negb (is_bounty l)) pre = true /\
    is_bounty c = true /\
    find is_bounty (issue_labels i) = Some c /\
    generateInternalIssueContentFromPayload payload =
      Some {| title := "[" +:+ label_name c +:+ "] " +:+ issue_title i;
              body := issue_body_text i u;
              labels := map label_name (issue_labels i) |} /\
    forall post',
      generateInternalIssueContentFromPayload
        {| issue := Some (set_labels (pre ++ c :: post') i);
           repository := repository payload |} =
      Some {| title := "[" +:+ label_name c +:+ "] " +:+ issue_title i;
              body := issue_body_text i u;
              labels := map label_name (pre ++ c :: post') |}.
Proof.
  intros Hvalid Hex.
  destruct (first_bounty_split _ Hex) as (pre & c & post & Hls & Hpre & Hc & Hf).
  exists pre, c, post. repeat split; try assumption.
  - now apply (classifier_at_first_match payload i u pre c post).
  - intros post'. destruct Hvalid as (Hi & Hu & Hurl).
    apply (classifier_at_first_match _ (set_labels (pre ++ c :: post') i) u
             pre c post'); try assumption; try reflexivity.
    repeat split; assumption.
Qed.

Lemma classifier_first_bounty_label_wins_scenario_A :
  valid_event Examples.scenario_A Examples.heap_overflow Examples.alice /\
  existsb is_bounty (issue_labels Examples.heap_overflow) = true /\
  exists pre c post,
    issue_labels Examples.heap_overflow = pre ++ c :: post /\
    forallb (fun l => negb (is_bounty l)) pre = true /\
    is_bounty c = true /\
    find is_bounty (issue_labels Examples.heap_overflow) = Some c /\
    generateInternalIssueContentFromPayload Examples.scenario_A =
      Some {| title := "[" +:+ label_name c +:+ "] Heap overflow";
              body := issue_body_text Examples.heap_overflow Examples.alice;
              labels := ["All For One"; "bug"] |} /\
    forall post',
      generateInternalIssueContentFromPayload
        {| issue := Some (set_labels (pre ++ c :: post') Examples.heap_overflow);
           repository := Some Examples.securitylab |} =
      Some {| title := "[" +:+ label_name c +:+ "] Heap overflow";
              body := issue_body_text Examples.heap_overflow Examples.alice;
              labels := map label_name (pre ++ c :: post') |}.
Proof.
  assert (Hv : valid_event Examples.scenario_A Examples.heap_overflow
                 Examples.alice) by (repeat split; reflexivity).
  assert (Hb : existsb is_bounty (issue_labels Examples.heap_overflow) = true)
    by reflexivity.
  split; [exact Hv|]. split; [exact Hb|].
  exact (classifier_first_bounty_label_wins Examples.scenario_A
           Examples.heap_overflow Examples.alice Hv Hb).
Defined.

(** The coordinates of the internal repository. *)
Example split_owner_repo :
  JS.split "/" "github/securitylab-internal" = ["github"; "securitylab-internal"].
Proof. reflexivity. Qed.

Example split_slash : JS.split "/" "/" = [""; ""].
Proof. reflexivity. Qed.

Example internal_repo_configured :
  internal_repo Examples.healthy = (Some "github", Some "securitylab-internal").
Proof. vm_compute. reflexivity. Qed.

Example internal_repo_without_slash :
  JS.destructure2 (JS.split "/" "securitylab") = (Some "securitylab", None).
Proof. reflexivity. Qed.

(** Scenario A of the spec: the draft of the classifier. *)
Example classifier_scenario_A :
  generateInternalIssueContentFromPayload Examples.scenario_A =
    Some Examples.draft_A.
Proof. reflexivity. Qed.

(** A later bounty label does not replace the first one. *)
Example classifier_two_bounty_labels :
  title <$> generateInternalIssueContentFromPayload
    {| issue := Some (set_labels [ {| label_name := "bug" |};
                                   {| label_name := "The Bug Slayer" |};
                                   {| label_name := "All For One" |} ]
                        Examples.heap_overflow);
       repository := None |} =
  Some "[The Bug Slayer] Heap overflow".
Proof. reflexivity. Qed.

(** Scenario C of the spec: no bounty label, no draft. *)
Example classifier_scenario_C :
  generateInternalIssueContentFromPayload
    {| issue := Some (set_labels [ {| label_name := "enhancement" |} ]
                        Examples.heap_overflow);
       repository := None |} = None.
Proof. reflexivity. Qed.

(** ** Calls made by a computation *)

Section Emits.
Context {S : Type} (P : Event -> Prop).

Lemma emits_ret {A} (a : A) : emits P (ret (S := S) a).
Proof. intros s. constructor. Qed.

Lemma emits_throw {A} e : emits P (throw (S := S) (A := A) e).
Proof. intros s. constructor. Qed.

Lemma emits_get : emits P (get (S := S)).
Proof. intros s. constructor. Qed.

Lemma emits_put s' : emits P (put (S := S) s').
Proof. intros s. constructor. Qed.

Lemma emits_call {A} e (r : Completion A) : P e -> emits P (call (S := S) e r).
Proof. intros He s. repeat constructor. exact He. Qed.

Lemma emits_bind {A B} (m : M S A) (k : A -> M S B) :
  emits P m -> (forall a, emits P (k a)) -> emits P (bind m k).
Proof.
  intros Hm Hk s. unfold bind, events. specialize (Hm s). unfold events in Hm.
  destruct (m s) as [[t s'] [a|e]]; simpl in *; [|assumption].
  specialize (Hk a s'). unfold events in Hk.
  destruct (k a s') as [[t' s''] c]; simpl in *.
  apply Forall_app; split; assumption.
Qed.

Lemma emits_try_catch {A} (m : M S A) h :
  emits P m -> (forall e, emits P (h e)) -> emits P (try_catch m h).
Proof.
  intros Hm Hh s. unfold try_catch, events. specialize (Hm s).
  unfold events in Hm.
  destruct (m s) as [[t s'] [a|e]]; simpl in *; [assumption|].
  specialize (Hh e s'). unfold events in Hh.
  destruct (h e s') as [[t' s''] c]; simpl in *.
  apply Forall_app; split; assumption.
Qed.

Lemma emits_scoped {L A} (init : L) (m : M L A) :
  emits P m -> emits P (scoped (S := S) init m).
Proof.
  intros Hm s. unfold scoped, events. specialize (Hm init).
  unfold events in Hm. destruct (m init) as [[t l] c]. exact Hm.
Qed.

End Emits.

(** Splits a computation along its binds and its tests. *)
Ltac emits_step :=
  match goal with
  | |- emits _ (bind _ _) => apply emits_bind; [|intros ?]
  | |- emits _ (try_catch _ _) => apply emits_try_catch; [|intros ?]
  | |- emits _ (scoped _ _) => apply emits_scoped
  | |- emits _ (ret _) => apply emits_ret
  | |- emits _ (throw _) => apply emits_throw
  | |- emits _ get => apply emits_get
  | |- emits _ (put _) => apply emits_put
  | |- emits _ (call _ _) => apply emits_call
  | |- emits _ (if ?b then _ else _) => destruct b
  | |- emits _ (match ?x with _ => _ end) => destruct x
  end.

(** ** The first-submission detector *)

Section FirstSubmission.
Context `{IssuesModule} {S : Type}.

(** What the detector does, by the repository of the payload: nothing and
    false without one; with one, a single listing of that repository with
    the token passed in, and the negation of [isUserAlreadyParticipant] on
    the listing. *)
Lemma isFirstSubmission_result
    (payload : WebhookPayload) (token : option string) (s : S) :
  isFirstSubmission payload token s =
    match repository payload with
    | None => ([], s, Normal false)
    | Some r =>
        ([ListIssues (Some (owner_login (owner r))) (Some (repo_name r))
            token false],
         s,
         match payload_issue_user_login payload with
         | Normal author =>
             Normal (negb (isUserAlreadyParticipant author
                             (getIssueList (Some (owner_login (owner r)))
                                (Some (repo_name r)) token false)))
         | Throw e => Throw e
         end)
    end.
Proof.
  unfold isFirstSubmission. destruct (repository payload) as [r|]; [|reflexivity].
  unfold bind, await_getIssueList, call.
  destruct (payload_issue_user_login payload); reflexivity.
Qed.

Lemma isFirstSubmission_with_repository
    (payload : WebhookPayload) (token : option string) (s : S) r :
  repository payload = Some r ->
  isFirstSubmission payload token s =
    ([ListIssues (Some (owner_login (owner r))) (Some (repo_name r)) token false],
     s,
     match payload_issue_user_login payload with
     | Normal author =>
         Normal (negb (isUserAlreadyParticipant author
                         (getIssueList (Some (owner_login (owner r)))
                            (Some (repo_name r)) token false)))
     | Throw e => Throw e
     end).
Proof. intros Hr. now rewrite isFirstSubmission_result, Hr. Qed.

(** C10: without a repository in the payload, [isFirstSubmission] returns
    false and asks for no listing. *)
Theorem isFirstSubmission_without_repository
    (payload : WebhookPayload) (token : option string) (s : S) :
  repository payload = None ->
  isFirstSubmission payload token s = ([], s, Normal false).
Proof. intros Hr. unfold isFirstSubmission. now rewrite Hr. Qed.

End FirstSubmission.

(** The variables of the caller do not change what the detector does. *)
Lemma isFirstSubmission_any_state `{IssuesModule} {S S' : Type}
    payload token (s : S) (s' : S') :
  events (isFirstSubmission payload token s) =
    events (isFirstSubmission payload token s') /\
  completion (isFirstSubmission payload token s) =
    completion (isFirstSubmission payload token s').
Proof.
  rewrite !isFirstSubmission_result.
  now destruct (repository payload) as [r|].
Qed.

Lemma isFirstSubmission_keeps_state `{IssuesModule} {S : Type}
    payload token (s : S) :
  (isFirstSubmission payload token s).1.2 = s.
Proof.
  rewrite isFirstSubmission_result.
  now destruct (repository payload) as [r|].
Qed.

Lemma isFirstSubmission_without_repository_example :
  repository Examples.no_repository = None /\
  isFirstSubmission (H := spec_issues Examples.empty_listing)
    Examples.no_repository (Some "ext-secret") tt = ([], tt, Normal false).
Proof.
  split; [reflexivity|].
  apply (isFirstSubmission_without_repository
           (H := spec_issues Examples.empty_listing)); reflexivity.
Defined.



(** With a repository and an issue that carries a user, an unavailable
    listing makes [isFirstSubmission] return true, for every issues module
    whose [isUserAlreadyParticipant] finds no participant in an unavailable
    listing, as the helper of the spec does for a known author. *)
Lemma isFirstSubmission_unavailable_listing_known_author `{IssuesModule}
    {S : Type} (payload : WebhookPayload) (r : PayloadRepository)
    (i : PayloadIssue) (u : User) (token : option string) (s : S) :
  repository payload = Some r ->
  issue payload = Some i ->
  user i = Some u ->
  getIssueList (Some (owner_login (owner r))) (Some (repo_name r)) token false
    = None ->
  isUserAlreadyParticipant (Some (login u)) None = false ->
  isFirstSubmission payload token s =
    ([ListIssues (Some (owner_login (owner r))) (Some (repo_name r)) token false],
     s, Normal true).
Proof.
  intros Hr Hi Hu Hl Hp. rewrite isFirstSubmission_result, Hr.
  unfold payload_issue_user_login. now rewrite Hi, Hu, Hl, Hp.
Qed.

Example isFirstSubmission_unavailable_listing_scenario_A :
  isFirstSubmission (H := spec_issues Examples.unavailable)
    Examples.scenario_A (Some "ext-secret") tt =
    ([ListIssues (Some "github") (Some "securitylab") (Some "ext-secret") false],
     tt, Normal true).
Proof.
  exact (isFirstSubmission_unavailable_listing_known_author
           (H := spec_issues Examples.unavailable)
           Examples.scenario_A Examples.securitylab Examples.heap_overflow
           Examples.alice (Some "ext-secret") tt
           eq_refl eq_refl eq_refl eq_refl eq_refl).
Qed.

(** ** The mirror creator *)

Section MirrorCreator.
Context (W : World) `{IssuesModule} {S : Type}.

(** C6: without the credential of the internal tracker (absent, or
    empty), [createInternalIssue] makes no call at all, so no issue and no
    comment is created, and it returns [undefined] without throwing. *)
Theorem createInternalIssue_without_credential
    (payload : WebhookPayload) (draft : Issue) (s : S) :
  JS.truthy_opt JS.truthy_string (env W !! "INT_REPO_TOKEN") = false ->
  createInternalIssue W payload draft s = ([], s, Normal None).
Proof.
  intros Htok. unfold createInternalIssue. rewrite Htok. reflexivity.
Qed.

End MirrorCreator.

Lemma createInternalIssue_without_credential_forked :
  env Examples.forked !! "INT_REPO_TOKEN" = None /\
  createInternalIssue (H := spec_issues Examples.empty_listing)
    Examples.forked Examples.scenario_A Examples.draft_A tt =
    ([], tt, Normal None).
Proof.
  split; [reflexivity|].
  apply (createInternalIssue_without_credential Examples.forked
           (H := spec_issues Examples.empty_listing)).
  reflexivity.
Defined.

(** Scenario A of the spec, on an empty internal tracker: three comments. *)
Example createInternalIssue_scenario_A :
  createInternalIssue (H := spec_issues Examples.empty_listing)
    Examples.healthy Examples.scenario_A Examples.draft_A tt =
  ([ CreateIssue "int-secret" (Some "github") (Some "securitylab-internal")
       "[All For One] Heap overflow"
       (issue_body_text Examples.heap_overflow Examples.alice)
       ["All For One"; "bug"];
     CreateComment "int-secret" (Some "github") (Some "securitylab-internal") 7
       COMMENT_TASK_LIST;
     CreateComment "int-secret" (Some "github") (Some "securitylab-internal") 7
       COMMENT_SCORING;
     ListIssues (Some "github") (Some "securitylab") (Some "ext-secret") false;
     CreateComment "int-secret" (Some "github") (Some "securitylab-internal") 7
       COMMENT_FIRST_SUBMISSION ],
   tt, Normal (Some 7)).
Proof. vm_compute. reflexivity. Qed.

Section MirrorCreatorResults.
Context (W : World) `{IssuesModule} {S : Type}.

(** C1, as the code has it: no failure leaves [createInternalIssue], which
    always returns; it returns [undefined] when the creation of the issue
    fails, and the number of the created issue when the creation
    succeeded, also when a comment or the first-submission check failed
    afterwards. *)
Theorem createInternalIssue_catches_failures
    (payload : WebhookPayload) (draft : Issue) (s : S) :
  exists t,
    createInternalIssue W payload draft s =
      (t, s, Normal (creation_reference W draft)).
Proof.
  unfold createInternalIssue, creation_reference.
  destruct (env W !! "INT_REPO_TOKEN") as [tok|];
    cbn [JS.truthy_opt from_option id]; [|eexists; reflexivity].
  destruct (JS.truthy_string tok); cbn [negb]; [|eexists; reflexivity].
  destruct (internal_repo W) as [owner repo]. cbn [fst snd].
  unfold scoped, bind, try_catch, octokit_issues_create,
    octokit_issues_createComment, call, get, put, ret.
  destruct (issues_create W tok owner repo _ _ _) as [n|e];
    [|eexists; reflexivity].
  destruct (issues_createComment W tok owner repo n COMMENT_TASK_LIST);
    [|eexists; reflexivity].
  destruct (issues_createComment W tok owner repo n COMMENT_SCORING);
    [|eexists; reflexivity].
  pose proof (isFirstSubmission_keeps_state payload (env W !! "GITHUB_TOKEN")
                (Some n)) as Hs.
  destruct (isFirstSubmission payload (env W !! "GITHUB_TOKEN") (Some n))
    as [[t s'] [first|e]]; cbn in Hs; subst s'; [|eexists; reflexivity].
  destruct first; [|eexists; reflexivity].
  destruct (issues_createComment W tok owner repo n COMMENT_FIRST_SUBMISSION);
    eexists; reflexivity.
Qed.

(** C7: when the tracker accepts the issue and every comment, the calls
    that change the tracker are, in this order: the creation of the issue,
    the task-list comment, the scoring comment and, only when
    [isFirstSubmission] returns true, the first-submission banner; when it
    returns false (or throws) the two fixed comments are the only ones. *)
Theorem createInternalIssue_comment_order
    (payload : WebhookPayload) (draft : Issue) (s : S) (tok : string) (n : Z) :
  env W !! "INT_REPO_TOKEN" = Some tok ->
  JS.truthy_string tok = true ->
  issues_create W tok (internal_repo W).1 (internal_repo W).2
    (title draft) (body draft) (labels draft) = Normal n ->
  (forall text, comment_accepted W tok n text) ->
  completion (createInternalIssue W payload draft s) = Normal (Some n) /\
  List.filter is_mutation (events (createInternalIssue W payload draft s)) =
    [ CreateIssue tok (internal_repo W).1 (internal_repo W).2
        (title draft) (body draft) (labels draft);
      CreateComment tok (internal_repo W).1 (internal_repo W).2 n
        COMMENT_TASK_LIST;
      CreateComment tok (internal_repo W).1 (internal_repo W).2 n
        COMMENT_SCORING ] ++
    match completion (isFirstSubmission payload (env W !! "GITHUB_TOKEN") s) with
    | Normal true =>
        [ CreateComment tok (internal_repo W).1 (internal_repo W).2 n
            COMMENT_FIRST_SUBMISSION ]
    | _ => []
    end.
Proof.
  intros Htok Htruthy Hcreate Haccept.
  destruct (Haccept COMMENT_TASK_LIST) as [u1 H1].
  destruct (Haccept COMMENT_SCORING) as [u2 H2].
  destruct (Haccept COMMENT_FIRST_SUBMISSION) as [u3 H3].
  unfold createInternalIssue. rewrite Htok.
  cbn [JS.truthy_opt from_option id]. rewrite Htruthy. cbn [negb].
  destruct (internal_repo W) as [owner repo]. cbn [fst snd] in *.
  unfold scoped, bind, try_catch, octokit_issues_create,
    octokit_issues_createComment, call, get, put, ret.
  rewrite Hcreate, H1, H2, H3.
  destruct (isFirstSubmission_any_state payload (env W !! "GITHUB_TOKEN")
              s (Some n)) as [_ ->].
  pose proof (isFirstSubmission_keeps_state payload (env W !! "GITHUB_TOKEN")
                (Some n)) as Hs.
  rewrite isFirstSubmission_result in *.
  destruct (repository payload) as [r|]; [|split; reflexivity].
  unfold completion. cbn [fst snd].
  destruct (payload_issue_user_login payload) as [author|e];
    [|split; reflexivity].
  destruct (negb _); split; reflexivity.
Qed.

End MirrorCreatorResults.

(** C1 as stated fails: the issue is created with number 7, the task-list
    comment is refused, and the caller still gets the reference 7. *)
Lemma createInternalIssue_comment_failure_returns_reference :
  issues_createComment Examples.comments_fail "int-secret" (Some "github")
    (Some "securitylab-internal") 7 COMMENT_TASK_LIST =
    Throw (JS.Error "Validation Failed") /\
  createInternalIssue (H := spec_issues Examples.empty_listing)
    Examples.comments_fail Examples.scenario_A Examples.draft_A tt =
  ([ CreateIssue "int-secret" (Some "github") (Some "securitylab-internal")
       "[All For One] Heap overflow"
       (issue_body_text Examples.heap_overflow Examples.alice)
       ["All For One"; "bug"];
     CreateComment "int-secret" (Some "github") (Some "securitylab-internal") 7
       COMMENT_TASK_LIST ],
   tt, Normal (Some 7)).
Proof. split; [reflexivity|]. vm_compute. reflexivity. Qed.

Lemma healthy_accepts_comments text :
  comment_accepted Examples.healthy "int-secret" 7 text.
Proof. eexists. reflexivity. Qed.

(** Scenario E of the spec: alice submitted before, so two comments only. *)
Lemma createInternalIssue_comment_order_scenario_E :
  env Examples.healthy !! "INT_REPO_TOKEN" = Some "int-secret" /\
  completion (createInternalIssue (H := spec_issues Examples.alice_returns)
                Examples.healthy Examples.scenario_A Examples.draft_A tt) =
    Normal (Some 7) /\
  List.filter is_mutation
    (events (createInternalIssue (H := spec_issues Examples.alice_returns)
               Examples.healthy Examples.scenario_A Examples.draft_A tt)) =
    [ CreateIssue "int-secret" (internal_repo Examples.healthy).1
        (internal_repo Examples.healthy).2
        (title Examples.draft_A) (body Examples.draft_A)
        (labels Examples.draft_A);
      CreateComment "int-secret" (internal_repo Examples.healthy).1
        (internal_repo Examples.healthy).2 7 COMMENT_TASK_LIST;
      CreateComment "int-secret" (internal_repo Examples.healthy).1
        (internal_repo Examples.healthy).2 7 COMMENT_SCORING ] ++
    match
      completion (isFirstSubmission (H := spec_issues Examples.alice_returns)
                    Examples.scenario_A
                    (env Examples.healthy !! "GITHUB_TOKEN") tt)
    with
    | Normal true =>
        [ CreateComment "int-secret" (internal_repo Examples.healthy).1
            (internal_repo Examples.healthy).2 7 COMMENT_FIRST_SUBMISSION ]
    | _ => []
    end.
Proof.
  split; [reflexivity|].
  exact (createInternalIssue_comment_order Examples.healthy
           (H := spec_issues Examples.alice_returns)
           Examples.scenario_A Examples.draft_A tt "int-secret" 7
           eq_refl eq_refl eq_refl healthy_accepts_comments).
Defined.

Example scenario_E_has_no_banner :
  comment_bodies
    (events (createInternalIssue (H := spec_issues Examples.alice_returns)
               Examples.healthy Examples.scenario_A Examples.draft_A tt)) =
  [COMMENT_TASK_LIST; COMMENT_SCORING].
Proof. vm_compute. reflexivity. Qed.

Example scenario_A_has_the_banner :
  comment_bodies
    (events (createInternalIssue (H := spec_issues Examples.empty_listing)
               Examples.healthy Examples.scenario_A Examples.draft_A tt)) =
  [COMMENT_TASK_LIST; COMMENT_SCORING; COMMENT_FIRST_SUBMISSION].
Proof. vm_compute. reflexivity. Qed.

(** ** Which listing decides on the banner *)

Lemma isFirstSubmission_emits `{IssuesModule} {S : Type} (P : Event -> Prop)
    payload token :
  (forall r, repository payload = Some r ->
     P (ListIssues (Some (owner_login (owner r))) (Some (repo_name r))
          token false)) ->
  emits (S := S) P (isFirstSubmission payload token).
Proof.
  intros HP s. rewrite isFirstSubmission_result.
  destruct (repository payload) as [r|]; [|constructor].
  repeat constructor. now apply HP.
Qed.

Lemma createInternalIssue_emits W `{IssuesModule} {S : Type} (P : Event -> Prop)
    payload draft :
  (forall tok o r t b l, P (CreateIssue tok o r t b l)) ->
  (forall tok o r n text,
     In text [COMMENT_TASK_LIST; COMMENT_SCORING; COMMENT_FIRST_SUBMISSION] ->
     P (CreateComment tok o r n text)) ->
  (forall r, repository payload = Some r -> P (submissions_call W r)) ->
  emits (S := S) P (createInternalIssue W payload draft).
Proof.
  intros Hissue Hcomment Hlist. unfold createInternalIssue.
  apply emits_scoped.
  destruct (negb _); [apply emits_ret|].
  destruct (internal_repo W) as [owner repo].
  unfold octokit_issues_create, octokit_issues_createComment.
  repeat emits_step; try apply Hissue; try (apply Hcomment; simpl; tauto).
  apply isFirstSubmission_emits. exact Hlist.
Qed.

(** Every listing [createInternalIssue] asks for is the listing of the
    repository named in the payload, with [GITHUB_TOKEN]; and its calls and
    its result are the same for two issue modules that agree on that one
    listing and on [isUserAlreadyParticipant], whatever they answer for any
    other repository or token, the internal tracker's included. *)
Lemma createInternalIssue_ignores_other_listings
    (W : World) (I1 I2 : IssuesModule) {S : Type}
    (payload : WebhookPayload) (draft : Issue) (r : PayloadRepository) (s : S) :
  repository payload = Some r ->
  (forall author l,
     isUserAlreadyParticipant (IssuesModule := I1) author l =
     isUserAlreadyParticipant (IssuesModule := I2) author l) ->
  getIssueList (IssuesModule := I1) (Some (owner_login (owner r)))
    (Some (repo_name r)) (env W !! "GITHUB_TOKEN") false =
  getIssueList (IssuesModule := I2) (Some (owner_login (owner r)))
    (Some (repo_name r)) (env W !! "GITHUB_TOKEN") false ->
  Forall (fun e => is_listing e = true -> e = submissions_call W r)
    (events (createInternalIssue (H := I1) W payload draft s)) /\
  createInternalIssue (H := I1) W payload draft s =
    createInternalIssue (H := I2) W payload draft s.
Proof.
  intros Hr Hhelper Hlisting. split.
  - apply createInternalIssue_emits; try discriminate.
    intros r' Hr' _. congruence.
  - assert (Hfirst : forall s' : option Z,
              isFirstSubmission (H := I1) payload (env W !! "GITHUB_TOKEN") s' =
              isFirstSubmission (H := I2) payload (env W !! "GITHUB_TOKEN") s').
    { intros s'. rewrite !(isFirstSubmission_with_repository _ _ _ r Hr).
      rewrite Hlisting. destruct (payload_issue_user_login payload);
        [rewrite Hhelper|]; reflexivity. }
    unfold createInternalIssue, scoped, bind, try_catch.
    destruct (negb _); [reflexivity|].
    destruct (internal_repo W) as [owner repo].
    destruct (octokit_issues_create _ _ _ _ _ _ _ None) as [[t0 s0] [n|e]];
      [|reflexivity].
    destruct (put (Some n) s0) as [[t1 s1] [[]|e]]; [|reflexivity].
    destruct (octokit_issues_createComment _ _ _ _ _ COMMENT_TASK_LIST s1)
      as [[t2 s2] [u2|e]]; [|reflexivity].
    destruct (octokit_issues_createComment _ _ _ _ _ COMMENT_SCORING s2)
      as [[t3 s3] [u3|e]]; [|reflexivity].
    rewrite Hfirst. reflexivity.
Qed.

(** ** The orchestrator *)

Section Orchestrator.
Context (W : World) `{IssuesModule} {S : Type}.

(** [core.getInput(..) || true] is a non-empty string or [true]. *)
Lemma existingIssue_truthy : JS.truthy (existingIssue W) = true.
Proof.
  unfold existingIssue, JS.or.
  destruct (JS.truthy (JS.Str (getInput W "existingIssue"))) eqn:E;
    [exact E | reflexivity].
Qed.

Lemma checkDuplicates_result (payload : WebhookPayload) (s : S) :
  checkDuplicates W payload s =
    ([duplicate_check_call W], s,
     Normal
       match getIssueList (internal_repo W).1 (internal_repo W).2
               (env W !! "INT_REPO_TOKEN") false with
       | None => true
       | Some internalIssues =>
           JS.truthy_opt JS.truthy_number
             (internalIssueAlreadyCreated (payload_issue_html_url payload)
                internalIssues)
       end).
Proof.
  unfold checkDuplicates, duplicate_check_call.
  destruct (internal_repo W) as [owner repo]. cbn [fst snd].
  unfold bind, await_getIssueList, call, ret.
  destruct (getIssueList owner repo _ false) as [l|]; [|reflexivity].
  destruct (JS.truthy_opt _ _); reflexivity.
Qed.

(** What [run] does once the flag is known to be truthy. *)
Lemma run_unfolded (s : S) :
  run W s =
    match generateInternalIssueContentFromPayload (context_payload W) with
    | None => ([], s, Normal tt)
    | Some internalIssue =>
        bind (checkDuplicates W (context_payload W))
          (fun duplicate =>
             if duplicate then ret tt
             else
               bind (createInternalIssue W (context_payload W) internalIssue)
                 (fun _ => ret tt)) s
    end.
Proof.
  unfold run. rewrite existingIssue_truthy. cbn [negb].
  destruct (generateInternalIssueContentFromPayload _) as [d|]; [|reflexivity].
  unfold bind. destruct (checkDuplicates _ _ _) as [[t s'] [[]|e]]; try reflexivity.
  destruct (createInternalIssue _ _ _ _) as [[t' s''] [ref|e]]; [|reflexivity].
  destruct (negb _); reflexivity.
Qed.

Lemma run_never_acknowledges (s : S) : acknowledged (events (run W s)) = false.
Proof.
  assert (Hrun : Forall (fun e => is_acknowledgement e = false)
                   (events (run W s))).
  { rewrite run_unfolded.
    destruct (generateInternalIssueContentFromPayload _) as [d|];
      [|constructor].
    revert s. apply emits_bind.
    - intros s. rewrite checkDuplicates_result. repeat constructor.
    - intros [|]; [apply emits_ret|].
      apply emits_bind; [|intros; apply emits_ret].
      apply createInternalIssue_emits; try reflexivity.
      intros tok o r n text [<-|[<-|[<-|[]]]]; reflexivity. }
  unfold acknowledged. apply not_true_is_false. intros Hex.
  apply existsb_exists in Hex as (e & Hin & He).
  rewrite Forall_forall in Hrun. apply list_elem_of_In in Hin.
  rewrite (Hrun e Hin) in He. discriminate.
Qed.

Lemma run_first_call (s : S) :
  is_Some (generateInternalIssueContentFromPayload (context_payload W)) ->
  head (events (run W s)) = Some (duplicate_check_call W).
Proof.
  intros [d Hd]. rewrite run_unfolded, Hd.
  unfold bind. rewrite checkDuplicates_result.
  destruct (match getIssueList _ _ _ _ with None => true | Some l => _ end);
    [reflexivity|].
  destruct (createInternalIssue _ _ _ _) as [[t s'] [ref|e]]; reflexivity.
Qed.

(** C3: when the issues of the internal repository cannot be listed
    (which an empty list is not), [checkDuplicates] reports a duplicate,
    and [run] stops after that listing: it creates no issue and no
    comment. *)
Theorem unavailable_internal_listing_aborts (payload : WebhookPayload) (s : S) :
  getIssueList (internal_repo W).1 (internal_repo W).2
    (env W !! "INT_REPO_TOKEN") false = None ->
  checkDuplicates W payload s = ([duplicate_check_call W], s, Normal true) /\
  run W s =
    (match generateInternalIssueContentFromPayload (context_payload W) with
     | Some _ => [duplicate_check_call W]
     | None => []
     end, s, Normal tt) /\
  existsb is_mutation (events (run W s)) = false.
Proof.
  intros Hlist.
  assert (Hdup : forall p, checkDuplicates W p s =
                           ([duplicate_check_call W], s, Normal true)).
  { intros p. rewrite checkDuplicates_result, Hlist. reflexivity. }
  assert (Hrun : run W s =
    (match generateInternalIssueContentFromPayload (context_payload W) with
     | Some _ => [duplicate_check_call W]
     | None => []
     end, s, Normal tt)).
  { rewrite run_unfolded.
    destruct (generateInternalIssueContentFromPayload _); [|reflexivity].
    unfold bind. rewrite Hdup. reflexivity. }
  split; [apply Hdup|]. split; [exact Hrun|].
  rewrite Hrun. destruct (generateInternalIssueContentFromPayload _);
    reflexivity.
Qed.

(** C8: whatever the input [existingIssue] holds, a non-empty string such
    as [false], the empty string, or nothing, the flag [run] computes is
    truthy; so a run with a draft starts with the duplicate check, and no
    run posts the acknowledgement on the original issue. *)
Theorem existingIssue_flag_always_truthy (s : S) :
  JS.truthy (existingIssue W) = true /\
  (is_Some (generateInternalIssueContentFromPayload (context_payload W)) ->
   duplicate_checked W (events (run W s)) = true) /\
  acknowledged (events (run W s)) = false.
Proof.
  split; [apply existingIssue_truthy|]. split; [|apply run_never_acknowledges].
  intros Hdraft. unfold duplicate_checked.
  apply bool_decide_eq_true. now apply run_first_call.
Qed.

(** C2: in every run the acknowledgement is posted only if the duplicate
    check was made, and it is not posted when the input [existingIssue]
    says that the issue exists already. *)
Theorem acknowledgement_only_after_duplicate_check (s : S) :
  implb (acknowledged (events (run W s)))
        (duplicate_checked W (events (run W s))) = true /\
  (JS.truthy_string (getInput W "existingIssue") = true ->
   acknowledged (events (run W s)) = false).
Proof.
  rewrite run_never_acknowledges. split; [reflexivity|]. intros _. reflexivity.
Qed.

End Orchestrator.

Lemma unavailable_internal_listing_aborts_scenario_A :
  getIssueList (IssuesModule := spec_issues Examples.alice_returns)
    (internal_repo Examples.healthy).1 (internal_repo Examples.healthy).2
    (env Examples.healthy !! "INT_REPO_TOKEN") false = None /\
  checkDuplicates (H := spec_issues Examples.alice_returns) Examples.healthy
    Examples.scenario_A tt =
    ([duplicate_check_call Examples.healthy], tt, Normal true) /\
  run (H := spec_issues Examples.alice_returns) Examples.healthy tt =
    (match generateInternalIssueContentFromPayload
             (context_payload Examples.healthy) with
     | Some _ => [duplicate_check_call Examples.healthy]
     | None => []
     end, tt, Normal tt) /\
  existsb is_mutation
    (events (run (H := spec_issues Examples.alice_returns) Examples.healthy tt))
  = false.
Proof.
  split; [reflexivity|].
  exact (unavailable_internal_listing_aborts Examples.healthy
           (H := spec_issues Examples.alice_returns) Examples.scenario_A tt
           eq_refl).
Defined.

Lemma acknowledgement_only_after_duplicate_check_update_path :
  JS.truthy_string (getInput Examples.update_path "existingIssue") = true /\
  acknowledged
    (events (run (H := spec_issues Examples.empty_listing)
               Examples.update_path tt)) = false.
Proof.
  split; [reflexivity|].
  exact (proj2 (acknowledgement_only_after_duplicate_check Examples.update_path
                  (H := spec_issues Examples.empty_listing) tt) eq_refl).
Defined.

(** The string [false] is truthy, and so is the flag without the input. *)
Example existingIssue_false_string :
  JS.truthy (JS.or (JS.Str "false") (JS.Bool true)) = true.
Proof. reflexivity. Qed.

Example existingIssue_absent :
  input Examples.healthy !! "existingIssue" = None /\
  existingIssue Examples.healthy = JS.Bool true.
Proof. split; reflexivity. Qed.

(** Scenario A of the spec, whole run: the duplicate check, the mirror with
    its three comments, and no acknowledgement. *)
Example run_scenario_A :
  run (H := spec_issues Examples.empty_listing) Examples.healthy tt =
  ([ ListIssues (Some "github") (Some "securitylab-internal")
       (Some "int-secret") false;
     CreateIssue "int-secret" (Some "github") (Some "securitylab-internal")
       "[All For One] Heap overflow"
       (issue_body_text Examples.heap_overflow Examples.alice)
       ["All For One"; "bug"];
     CreateComment "int-secret" (Some "github") (Some "securitylab-internal") 7
       COMMENT_TASK_LIST;
     CreateComment "int-secret" (Some "github") (Some "securitylab-internal") 7
       COMMENT_SCORING;
     ListIssues (Some "github") (Some "securitylab") (Some "ext-secret") false;
     CreateComment "int-secret" (Some "github") (Some "securitylab-internal") 7
       COMMENT_FIRST_SUBMISSION ],
   tt, Normal tt).
Proof. vm_compute. reflexivity. Qed.

(** Scenario B of the spec: the internal tracker holds a mirror of the
    issue, and the run stops after the duplicate check. *)
Example run_scenario_B :
  run (H := spec_issues Examples.internal_mirrors) Examples.healthy tt =
  ([ ListIssues (Some "github") (Some "securitylab-internal")
       (Some "int-secret") false ], tt, Normal tt).
Proof. vm_compute. reflexivity. Qed.

Lemma existingIssue_flag_always_truthy_scenario_A :
  JS.truthy (existingIssue Examples.healthy) = true /\
  is_Some (generateInternalIssueContentFromPayload
             (context_payload Examples.healthy)) /\
  duplicate_checked Examples.healthy
    (events (run (H := spec_issues Examples.empty_listing)
               Examples.healthy tt)) = true /\
  acknowledged
    (events (run (H := spec_issues Examples.empty_listing)
               Examples.healthy tt)) = false.
Proof.
  assert (Hd : is_Some (generateInternalIssueContentFromPayload
                          (context_payload Examples.healthy)))
    by (eexists; reflexivity).
  destruct (existingIssue_flag_always_truthy Examples.healthy
              (H := spec_issues Examples.empty_listing) tt)
    as (Hflag & Hcheck & Hack).
  split; [exact Hflag|]. split; [exact Hd|]. split; [exact (Hcheck Hd)|exact Hack].
Defined.

(** ** The notifier, which no run reaches *)

(** The comment of [commentOriginalIssue] is the one [is_acknowledgement]
    looks for, whatever the reference. *)
Lemma acknowledgement_recognised tok o r k n :
  is_acknowledgement (CreateComment tok o r k (acknowledgement n)) = true.
Proof. reflexivity. Qed.

Example acknowledgement_text :
  acknowledgement 7 =
  "Thanks for submitting this bounty :heart:!" +:+ newline +:+
  "            Your submission is tracked internally with the issue reference 7.".
Proof. vm_compute. reflexivity. Qed.

(** Called on its own, the notifier comments on the original issue with the
    token of the external repository. *)
Example commentOriginalIssue_scenario_A :
  commentOriginalIssue Examples.healthy Examples.scenario_A 7 tt =
  ([ CreateComment "ext-secret" (Some "github") (Some "securitylab") 1
       (acknowledgement 7) ], tt, Normal tt).
Proof. vm_compute. reflexivity. Qed.

(** Scenario D of the spec: without the internal credential the duplicate
    check still runs, the creation does nothing, and the run changes no
    tracker. *)
Example run_scenario_D :
  run (H := spec_issues Examples.empty_listing) Examples.forked tt =
  ([ ListIssues (Some "github") (Some "securitylab-internal") None false ],
   tt, Normal tt).
Proof. vm_compute. reflexivity. Qed.

(** * Further properties of the action *)

(** ** Strings *)

Lemma prefix_append (u rest : string) : String.prefix u (u +:+ rest) = true.
Proof.
  induction u as [|c u IH]; simpl.
  - now destruct rest.
  - destruct (ascii_dec c c) as [_|Hne]; [exact IH | now destruct Hne].
Qed.

Lemma str_includes_unfold (needle hay : string) :
  JS.str_includes needle hay =
    String.prefix needle hay ||
    match hay with
    | EmptyString => false
    | String _ rest => JS.str_includes needle rest
    end.
Proof. destruct hay; reflexivity. Qed.

(** [hay.includes(needle)] finds a needle wherever it stands. *)
Lemma str_includes_infix (before needle after : string) :
  JS.str_includes needle (before +:+ needle +:+ after) = true.
Proof.
  induction before as [|c before IH].
  - change (EmptyString +:+ needle +:+ after) with (needle +:+ after).
    now rewrite str_includes_unfold, prefix_append.
  - change (String c before +:+ needle +:+ after)
      with (String c (before +:+ needle +:+ after)).
    rewrite str_includes_unfold, IH. apply orb_true_r.
Qed.

Lemma split_free (sep : ascii) (s : string) :
  free_of sep s = true -> JS.split sep s = [s].
Proof.
  unfold free_of. induction s as [|c s IH]; simpl; [reflexivity|].
  intros H. apply andb_prop in H as [Hc Hs].
  apply negb_true_iff in Hc. rewrite Hc, (IH Hs). reflexivity.
Qed.

Lemma split_at_first (sep : ascii) (left right : string) :
  free_of sep left = true ->
  JS.split sep (left +:+ String sep right) = left :: JS.split sep right.
Proof.
  unfold free_of. induction left as [|c left IH]; simpl.
  - intros _. now rewrite Ascii.eqb_refl.
  - intros H. apply andb_prop in H as [Hc Hs].
    apply negb_true_iff in Hc. rewrite Hc, (IH Hs). reflexivity.
Qed.

(** ** The classifier, both ways *)

Lemma includes_In (xs : list string) (x : string) :
  JS.includes xs x = true -> In x xs.
Proof.
  unfold JS.includes. intros H. apply existsb_exists in H as (y & Hin & Heq).
  apply String.eqb_eq in Heq. now subst.
Qed.

Lemma no_bounty_forallb (ls : list Label) :
  existsb is_bounty ls = false ->
  forallb (fun l => negb (is_bounty l)) ls = true.
Proof.
  induction ls as [|l ls IH]; simpl; [reflexivity|].
  intros H. apply orb_false_elim in H as [Hl Hls].
  now rewrite Hl, IH.
Qed.

(** The scan finds a bounty label exactly when the list has one. *)
Lemma scan_bountyIssue (ls : list Label) :
  bountyIssue (scan ls) = existsb is_bounty ls.
Proof.
  destruct (existsb is_bounty ls) eqn:Hex.
  - destruct (first_bounty_split ls Hex) as (pre & c & post & -> & Hpre & Hc & _).
    now rewrite (scan_first_match pre c post Hpre Hc).
  - unfold scan.
    now rewrite (scan_before_match ls scan_init eq_refl (no_bounty_forallb ls Hex)).
Qed.

(** A draft comes from a valid event, and is built from its first bounty
    label. *)
Lemma classifier_inversion (payload : WebhookPayload) (d : Issue) :
  generateInternalIssueContentFromPayload payload = Some d ->
  exists i u c,
    valid_event payload i u /\
    find is_bounty (issue_labels i) = Some c /\
    is_bounty c = true /\
    d = {| title := "[" +:+ label_name c +:+ "] " +:+ issue_title i;
           body := issue_body_text i u;
           labels := map label_name (issue_labels i) |}.
Proof.
  intros Hd.
  assert (Hvalid : exists i u, valid_event payload i u /\
                     existsb is_bounty (issue_labels i) = true).
  { unfold generateInternalIssueContentFromPayload in Hd.
    destruct (issue payload) as [i|] eqn:Hi; [|discriminate].
    destruct (user i) as [u|] eqn:Hu; [|discriminate].
    destruct (JS.truthy_opt JS.truthy_string (html_url i)) eqn:Hurl;
      [|discriminate].
    cbn [negb] in Hd. rewrite scan_bountyIssue in Hd.
    destruct (existsb is_bounty (issue_labels i)) eqn:Hex; [|discriminate].
    exists i, u. repeat split; assumption. }
  destruct Hvalid as (i & u & Hv & Hex).
  destruct (first_bounty_split _ Hex) as (pre & c & post & Hls & Hpre & Hc & Hf).
  rewrite (classifier_at_first_match payload i u pre c post Hv Hls Hpre Hc) in Hd.
  injection Hd as <-. exists i, u, c. auto.
Qed.

(** X1: the classifier produces a draft exactly for a valid event (an issue
    with a user and a non-empty url) one of whose labels is a bounty
    label. *)
Theorem classifier_accepts_iff (payload : WebhookPayload) :
  is_Some (generateInternalIssueContentFromPayload payload) <->
  exists i u, valid_event payload i u /\
              existsb is_bounty (issue_labels i) = true.
Proof.
  split.
  - intros [d Hd].
    destruct (classifier_inversion payload d Hd) as (i & u & c & Hv & Hf & Hc & _).
    exists i, u. split; [exact Hv|].
    apply existsb_exists. exists c. split; [|exact Hc].
    apply find_some in Hf. tauto.
  - intros (i & u & Hv & Hex).
    destruct (first_bounty_split _ Hex) as (pre & c & post & Hls & Hpre & Hc & _).
    rewrite (classifier_at_first_match payload i u pre c post Hv Hls Hpre Hc).
    eexists. reflexivity.
Qed.

(** X2: the title of every draft is the title of the event behind one of
    the two bounty categories in square brackets. *)
Theorem classifier_title_category (payload : WebhookPayload) (d : Issue) :
  generateInternalIssueContentFromPayload payload = Some d ->
  exists i c,
    issue payload = Some i /\
    In c BOUNTY_LABELS /\
    title d = "[" +:+ c +:+ "] " +:+ issue_title i.
Proof.
  intros Hd.
  destruct (classifier_inversion payload d Hd)
    as (i & u & c & (Hi & _) & _ & Hc & ->).
  exists i, (label_name c). split; [exact Hi|]. split; [|reflexivity].
  now apply includes_In.
Qed.

Lemma classifier_title_category_scenario_A :
  generateInternalIssueContentFromPayload Examples.scenario_A =
    Some Examples.draft_A /\
  exists i c,
    issue Examples.scenario_A = Some i /\
    In c BOUNTY_LABELS /\
    title Examples.draft_A = "[" +:+ c +:+ "] " +:+ issue_title i.
Proof.
  split; [reflexivity|].
  exact (classifier_title_category Examples.scenario_A Examples.draft_A eq_refl).
Defined.

(** X3: the body of every draft contains the url of the original issue,
    the text by which a mirror is later recognised. *)
Theorem classifier_body_embeds_url
    (payload : WebhookPayload) (d : Issue) (i : PayloadIssue) (url : string) :
  generateInternalIssueContentFromPayload payload = Some d ->
  issue payload = Some i ->
  html_url i = Some url ->
  JS.str_includes url (body d) = true.
Proof.
  intros Hd Hi Hurl.
  destruct (classifier_inversion payload d Hd)
    as (i' & u & c & (Hi' & _) & _ & _ & ->).
  rewrite Hi in Hi'. injection Hi' as <-.
  cbn [body]. unfold issue_body_text. rewrite Hurl. cbn [default from_option id].
  apply str_includes_infix.
Qed.

Lemma classifier_body_embeds_url_scenario_A :
  generateInternalIssueContentFromPayload Examples.scenario_A =
    Some Examples.draft_A /\
  JS.str_includes Examples.U1 (body Examples.draft_A) = true.
Proof.
  split; [reflexivity|].
  exact (classifier_body_embeds_url Examples.scenario_A Examples.draft_A
           Examples.heap_overflow Examples.U1 eq_refl eq_refl eq_refl).
Defined.

(** ** The coordinates of the internal repository *)

(** The value [core.getInput] returns for an input that is set. *)
Lemma getInput_set (W : World) (name v : string) :
  input W !! name = Some v -> getInput W name = JS.trim v.
Proof. intros Hin. unfold getInput. now rewrite Hin. Qed.

(** X4: an input [internal_repo] that reads [owner/name] once the white
    space around it is trimmed, with no further slash, gives the owner and
    the name of the internal repository. *)
Theorem internal_repo_owner_and_name (W : World) (v o r : string) :
  input W !! "internal_repo" = Some v ->
  JS.trim v = o +:+ "/" +:+ r ->
  free_of "/" o = true ->
  free_of "/" r = true ->
  internal_repo W = (Some o, Some r).
Proof.
  intros Hin Htrim Ho Hr. unfold internal_repo.
  rewrite (getInput_set W _ v Hin), Htrim.
  assert (Htruthy : JS.or_string (o +:+ "/" +:+ r) "/" = o +:+ "/" +:+ r).
  { unfold JS.or_string, JS.truthy_string. now destruct o. }
  rewrite Htruthy.
  change (o +:+ "/" +:+ r) with (o +:+ String "/" r).
  rewrite (split_at_first "/" o r Ho), (split_free "/" r Hr). reflexivity.
Qed.

Lemma internal_repo_owner_and_name_padded :
  input Examples.padded !! "internal_repo" =
    Some "  github/securitylab-internal " /\
  internal_repo Examples.padded = (Some "github", Some "securitylab-internal").
Proof.
  split; [reflexivity|].
  exact (internal_repo_owner_and_name Examples.padded
           "  github/securitylab-internal " "github" "securitylab-internal"
           eq_refl eq_refl eq_refl eq_refl).
Defined.

(** X5: without the input [internal_repo], or with one that is empty once
    trimmed, the coordinates are two empty strings, not [undefined]; with
    an input that, trimmed, is not empty and has no slash, the owner is the
    trimmed input and the name of the repository is [undefined]. *)
Theorem internal_repo_degenerate (W : World) :
  (input W !! "internal_repo" = None ->
   internal_repo W = (Some "", Some "")) /\
  (forall v, input W !! "internal_repo" = Some v ->
             JS.trim v = "" ->
             internal_repo W = (Some "", Some "")) /\
  (forall v, input W !! "internal_repo" = Some v ->
             JS.truthy_string (JS.trim v) = true ->
             free_of "/" (JS.trim v) = true ->
             internal_repo W = (Some (JS.trim v), None)).
Proof.
  split; [|split].
  - intros Hin. unfold internal_repo, getInput. now rewrite Hin.
  - intros v Hin Htrim. unfold internal_repo.
    now rewrite (getInput_set W _ v Hin), Htrim.
  - intros v Hin Hs Hfree. unfold internal_repo.
    rewrite (getInput_set W _ v Hin). unfold JS.or_string.
    rewrite Hs, (split_free "/" _ Hfree). reflexivity.
Qed.

Lemma internal_repo_degenerate_examples :
  internal_repo Examples.unconfigured = (Some "", Some "") /\
  internal_repo Examples.blank = (Some "", Some "") /\
  internal_repo Examples.nameless = (Some "securitylab", None).
Proof.
  split; [|split].
  - exact (proj1 (internal_repo_degenerate Examples.unconfigured) eq_refl).
  - exact (proj1 (proj2 (internal_repo_degenerate Examples.blank)) "  "
             eq_refl eq_refl).
  - exact (proj2 (proj2 (internal_repo_degenerate Examples.nameless))
             "securitylab" eq_refl eq_refl eq_refl).
Defined.

(** ** The notifier *)

Section Notifier.
Context (W : World) {S : Type}.

(** X6: without the token of the original repository (absent or empty),
    without a repository in the payload, or without a positive issue number
    (a missing issue counts as 0), [commentOriginalIssue] makes no call and
    returns. *)
Theorem commentOriginalIssue_guards
    (payload : WebhookPayload) (internal_issue : Z) (s : S) :
  JS.truthy_opt JS.truthy_string (env W !! "GITHUB_TOKEN") = false \/
  repository payload = None \/
  match issue payload with Some i => number i | None => 0 end <= 0 ->
  commentOriginalIssue W payload internal_issue s = ([], s, Normal tt).
Proof.
  intros Hguard. unfold commentOriginalIssue.
  destruct (JS.truthy_opt JS.truthy_string (env W !! "GITHUB_TOKEN"));
    [|reflexivity].
  cbn [negb]. destruct (repository payload) as [r|]; [|reflexivity].
  destruct Hguard as [Ht|[Hr|Hn]]; try discriminate.
  apply Z.leb_le in Hn. now rewrite Hn.
Qed.

(** X7: with the token, a repository and a positive issue number,
    [commentOriginalIssue] posts one comment, on that issue of the
    payload's repository with the token of the original repository, and
    returns normally whether the tracker accepts the comment or throws. *)
Theorem commentOriginalIssue_posts_once
    (payload : WebhookPayload) (internal_issue : Z) (s : S)
    (tok : string) (r : PayloadRepository) (i : PayloadIssue) :
  env W !! "GITHUB_TOKEN" = Some tok ->
  JS.truthy_string tok = true ->
  repository payload = Some r ->
  issue payload = Some i ->
  0 < number i ->
  commentOriginalIssue W payload internal_issue s =
    ([ CreateComment tok (Some (owner_login (owner r))) (Some (repo_name r))
         (number i) (acknowledgement internal_issue) ],
     s, Normal tt).
Proof.
  intros Htok Htruthy Hr Hi Hn. unfold commentOriginalIssue.
  rewrite Htok, Hr, Hi. cbn [JS.truthy_opt from_option id]. rewrite Htruthy.
  cbn [negb]. apply Z.leb_gt in Hn. rewrite Hn.
  unfold try_catch, bind, octokit_issues_createComment, call, ret.
  destruct (issues_createComment W tok _ _ _ _); reflexivity.
Qed.

End Notifier.

Lemma commentOriginalIssue_guards_no_issue :
  match issue Examples.unnumbered with Some i => number i | None => 0 end <= 0 /\
  commentOriginalIssue Examples.healthy Examples.unnumbered 7 tt =
    ([], tt, Normal tt).
Proof.
  split; [reflexivity|].
  apply (commentOriginalIssue_guards Examples.healthy).
  right. right. reflexivity.
Defined.

Lemma commentOriginalIssue_posts_once_refused :
  issues_createComment Examples.comments_fail "ext-secret" (Some "github")
    (Some "securitylab") 1 (acknowledgement 7) =
    Throw (JS.Error "Validation Failed") /\
  commentOriginalIssue Examples.comments_fail Examples.scenario_A 7 tt =
    ([ CreateComment "ext-secret" (Some "github") (Some "securitylab") 1
         (acknowledgement 7) ], tt, Normal tt).
Proof.
  split; [reflexivity|].
  exact (commentOriginalIssue_posts_once Examples.comments_fail
           Examples.scenario_A 7 tt "ext-secret" Examples.securitylab
           Examples.heap_overflow eq_refl eq_refl eq_refl eq_refl eq_refl).
Defined.

(** ** When the detector throws *)

(** X8: [isFirstSubmission] throws exactly when the payload has a
    repository and an issue without a user; in every other case it returns
    a boolean. *)
Theorem isFirstSubmission_throws_iff `{IssuesModule} {S : Type}
    (payload : WebhookPayload) (token : option string) (s : S) :
  (exists e, completion (isFirstSubmission payload token s) = Throw e) <->
  is_Some (repository payload) /\
  exists i, issue payload = Some i /\ user i = None.
Proof.
  rewrite isFirstSubmission_result. unfold payload_issue_user_login, completion.
  destruct (repository payload) as [r|]; cbn [snd].
  - destruct (issue payload) as [i|]; [destruct (user i) as [u|] eqn:Hu|].
    + split; [intros [e He]; discriminate|].
      intros (_ & i' & Hi' & Hu'). injection Hi' as <-. congruence.
    + split; [|intros _; eauto]. intros _. split; [eauto|]. eauto.
    + split; [intros [e He]; discriminate|].
      intros (_ & i' & Hi' & _). discriminate.
  - split; [intros [e He]; discriminate|]. intros ([r Hr] & _). discriminate.
Qed.

(** ** The duplicate check on an available list *)

Section DuplicateCheck.
Context (W : World) `{IssuesModule} {S : Type}.

(** X9: on an available list, [checkDuplicates] asks for that one listing
    only, and reports a duplicate exactly when
    [internalIssueAlreadyCreated] returns a reference other than 0. *)
Theorem checkDuplicates_available
    (payload : WebhookPayload) (s : S) (l : list GitHubIssue) :
  getIssueList (internal_repo W).1 (internal_repo W).2
    (env W !! "INT_REPO_TOKEN") false = Some l ->
  events (checkDuplicates W payload s) = [duplicate_check_call W] /\
  (completion (checkDuplicates W payload s) = Normal true <->
   exists ref,
     internalIssueAlreadyCreated (payload_issue_html_url payload) l = Some ref /\
     ref <> 0) /\
  (completion (checkDuplicates W payload s) = Normal false <->
   internalIssueAlreadyCreated (payload_issue_html_url payload) l = None \/
   internalIssueAlreadyCreated (payload_issue_html_url payload) l = Some 0).
Proof.
  intros Hl. rewrite checkDuplicates_result, Hl. unfold events, completion.
  cbn [fst snd]. split; [reflexivity|].
  destruct (internalIssueAlreadyCreated _ l) as [ref|]; cbn [JS.truthy_opt].
  - unfold JS.truthy_number. destruct (Z.eqb_spec ref 0) as [->|Hne]; cbn [negb].
    + split; split; try discriminate; auto.
      intros (ref & Href & Hne). now injection Href as <-.
    + split; split; try discriminate; eauto.
      intros [Hnone|Hzero]; [discriminate|]. now injection Hzero as ->.
  - split; split; try discriminate; auto.
    intros (ref & Href & _). discriminate.
Qed.

End DuplicateCheck.

Lemma checkDuplicates_available_scenario_B :
  getIssueList (IssuesModule := spec_issues Examples.internal_mirrors)
    (internal_repo Examples.healthy).1 (internal_repo Examples.healthy).2
    (env Examples.healthy !! "INT_REPO_TOKEN") false <> None /\
  completion (checkDuplicates (H := spec_issues Examples.internal_mirrors)
                Examples.healthy Examples.scenario_A tt) = Normal true.
Proof.
  split; [discriminate|].
  destruct (checkDuplicates_available Examples.healthy
              (H := spec_issues Examples.internal_mirrors)
              Examples.scenario_A tt _ eq_refl) as (_ & Hdup & _).
  apply Hdup. exists 5. split; [reflexivity|discriminate].
Defined.

(** ** The calls of the mirror creator, one by one *)

Section MirrorCalls.
Context (W : World) `{IssuesModule} {S : Type}.

(** With the credential, every way [createInternalIssue] can go. *)
Lemma createInternalIssue_calls
    (payload : WebhookPayload) (draft : Issue) (s : S) (tok : string) :
  env W !! "INT_REPO_TOKEN" = Some tok ->
  JS.truthy_string tok = true ->
  let o := (internal_repo W).1 in
  let r := (internal_repo W).2 in
  let create := CreateIssue tok o r (title draft) (body draft) (labels draft) in
  let first := isFirstSubmission payload (env W !! "GITHUB_TOKEN") s in
  createInternalIssue W payload draft s =
    (match issues_create W tok o r (title draft) (body draft) (labels draft) with
     | Throw _ => [create]
     | Normal n =>
         create :: CreateComment tok o r n COMMENT_TASK_LIST ::
         match issues_createComment W tok o r n COMMENT_TASK_LIST with
         | Throw _ => []
         | Normal _ =>
             CreateComment tok o r n COMMENT_SCORING ::
             match issues_createComment W tok o r n COMMENT_SCORING with
             | Throw _ => []
             | Normal _ =>
                 events first ++
                 match completion first with
                 | Normal true =>
                     [CreateComment tok o r n COMMENT_FIRST_SUBMISSION]
                 | _ => []
                 end
             end
         end
     end,
     s,
     Normal match issues_create W tok o r (title draft) (body draft)
                    (labels draft) with
            | Normal n => Some n
            | Throw _ => None
            end).
Proof.
  intros Htok Htruthy o r create first. subst o r create first.
  unfold createInternalIssue. rewrite Htok.
  cbn [JS.truthy_opt from_option id]. rewrite Htruthy. cbn [negb].
  destruct (internal_repo W) as [o r]. cbn [fst snd].
  unfold scoped, bind, try_catch, octokit_issues_create,
    octokit_issues_createComment, call, get, put, ret.
  destruct (issues_create W tok o r _ _ _) as [n|e]; [|reflexivity].
  destruct (issues_createComment W tok o r n COMMENT_TASK_LIST);
    [|reflexivity].
  destruct (issues_createComment W tok o r n COMMENT_SCORING);
    [|reflexivity].
  rewrite !isFirstSubmission_result. unfold events, completion.
  destruct (repository payload) as [repo|]; cbn [fst snd]; [|reflexivity].
  destruct (payload_issue_user_login payload) as [author|e]; [|reflexivity].
  destruct (negb _); [|reflexivity].
  destruct (issues_createComment W tok o r n COMMENT_FIRST_SUBMISSION);
    reflexivity.
Qed.

(** X10: when the tracker refuses the new issue, the creation is the only
    call: no comment is attempted, no listing is asked for, and the result
    is [undefined]. *)
Theorem createInternalIssue_creation_refused
    (payload : WebhookPayload) (draft : Issue) (s : S) (tok : string)
    (e : JS.error) :
  env W !! "INT_REPO_TOKEN" = Some tok ->
  JS.truthy_string tok = true ->
  issues_create W tok (internal_repo W).1 (internal_repo W).2
    (title draft) (body draft) (labels draft) = Throw e ->
  createInternalIssue W payload draft s =
    ([ CreateIssue tok (internal_repo W).1 (internal_repo W).2
         (title draft) (body draft) (labels draft) ], s, Normal None).
Proof.
  intros Htok Htruthy Hcreate.
  rewrite (createInternalIssue_calls payload draft s tok Htok Htruthy).
  cbn zeta. now rewrite Hcreate.
Qed.

(** X11: the first refused comment ends the sequence.  After a refused
    task-list comment there is no scoring comment; after a refused scoring
    comment there is no first-submission check and no banner.  Either way
    the number of the created issue is returned. *)
Theorem createInternalIssue_stops_at_refused_comment
    (payload : WebhookPayload) (draft : Issue) (s : S) (tok : string) (n : Z) :
  env W !! "INT_REPO_TOKEN" = Some tok ->
  JS.truthy_string tok = true ->
  issues_create W tok (internal_repo W).1 (internal_repo W).2
    (title draft) (body draft) (labels draft) = Normal n ->
  let o := (internal_repo W).1 in
  let r := (internal_repo W).2 in
  let create := CreateIssue tok o r (title draft) (body draft) (labels draft) in
  (forall e,
     issues_createComment W tok o r n COMMENT_TASK_LIST = Throw e ->
     createInternalIssue W payload draft s =
       ([create; CreateComment tok o r n COMMENT_TASK_LIST], s,
        Normal (Some n))) /\
  (forall url e,
     issues_createComment W tok o r n COMMENT_TASK_LIST = Normal url ->
     issues_createComment W tok o r n COMMENT_SCORING = Throw e ->
     createInternalIssue W payload draft s =
       ([create; CreateComment tok o r n COMMENT_TASK_LIST;
         CreateComment tok o r n COMMENT_SCORING], s, Normal (Some n))).
Proof.
  intros Htok Htruthy Hcreate o r create. subst o r create.
  rewrite (createInternalIssue_calls payload draft s tok Htok Htruthy).
  cbn zeta. rewrite Hcreate. split.
  - intros e ->. reflexivity.
  - intros url e -> ->. reflexivity.
Qed.

(** X12: when the tracker accepts the issue and every comment, the calls
    are, in this order: the creation, the task-list comment, the scoring
    comment, then the calls of the first-submission check, and last the
    banner when that check returned true. *)
Theorem createInternalIssue_call_order
    (payload : WebhookPayload) (draft : Issue) (s : S) (tok : string) (n : Z) :
  env W !! "INT_REPO_TOKEN" = Some tok ->
  JS.truthy_string tok = true ->
  issues_create W tok (internal_repo W).1 (internal_repo W).2
    (title draft) (body draft) (labels draft) = Normal n ->
  (forall text, comment_accepted W tok n text) ->
  createInternalIssue W payload draft s =
    (mirror_calls W tok draft n
       (events (isFirstSubmission payload (env W !! "GITHUB_TOKEN") s))
       (completion (isFirstSubmission payload (env W !! "GITHUB_TOKEN") s)),
     s, Normal (Some n)).
Proof.
  intros Htok Htruthy Hcreate Haccept.
  destruct (Haccept COMMENT_TASK_LIST) as [u1 H1].
  destruct (Haccept COMMENT_SCORING) as [u2 H2].
  rewrite (createInternalIssue_calls payload draft s tok Htok Htruthy).
  cbn zeta. rewrite Hcreate, H1, H2. reflexivity.
Qed.

End MirrorCalls.

Lemma createInternalIssue_creation_refused_example :
  issues_create Examples.creation_fails "int-secret"
    (internal_repo Examples.creation_fails).1
    (internal_repo Examples.creation_fails).2
    (title Examples.draft_A) (body Examples.draft_A) (labels Examples.draft_A) =
    Throw (JS.Error "Not Found") /\
  createInternalIssue (H := spec_issues Examples.empty_listing)
    Examples.creation_fails Examples.scenario_A Examples.draft_A tt =
    ([ CreateIssue "int-secret" (internal_repo Examples.creation_fails).1
         (internal_repo Examples.creation_fails).2
         (title Examples.draft_A) (body Examples.draft_A)
         (labels Examples.draft_A) ], tt, Normal None).
Proof.
  split; [reflexivity|].
  exact (createInternalIssue_creation_refused Examples.creation_fails
           (H := spec_issues Examples.empty_listing)
           Examples.scenario_A Examples.draft_A tt "int-secret"
           (JS.Error "Not Found") eq_refl eq_refl eq_refl).
Defined.

Lemma createInternalIssue_stops_at_refused_comment_examples :
  createInternalIssue (H := spec_issues Examples.empty_listing)
    Examples.comments_fail Examples.scenario_A Examples.draft_A tt =
    ([ CreateIssue "int-secret" (internal_repo Examples.comments_fail).1
         (internal_repo Examples.comments_fail).2
         (title Examples.draft_A) (body Examples.draft_A)
         (labels Examples.draft_A);
       CreateComment "int-secret" (internal_repo Examples.comments_fail).1
         (internal_repo Examples.comments_fail).2 7 COMMENT_TASK_LIST ],
     tt, Normal (Some 7)) /\
  createInternalIssue (H := spec_issues Examples.empty_listing)
    Examples.scoring_fails Examples.scenario_A Examples.draft_A tt =
    ([ CreateIssue "int-secret" (internal_repo Examples.scoring_fails).1
         (internal_repo Examples.scoring_fails).2
         (title Examples.draft_A) (body Examples.draft_A)
         (labels Examples.draft_A);
       CreateComment "int-secret" (internal_repo Examples.scoring_fails).1
         (internal_repo Examples.scoring_fails).2 7 COMMENT_TASK_LIST;
       CreateComment "int-secret" (internal_repo Examples.scoring_fails).1
         (internal_repo Examples.scoring_fails).2 7 COMMENT_SCORING ],
     tt, Normal (Some 7)).
Proof.
  split.
  - exact (proj1 (createInternalIssue_stops_at_refused_comment
                    Examples.comments_fail
                    (H := spec_issues Examples.empty_listing)
                    Examples.scenario_A Examples.draft_A tt "int-secret" 7
                    eq_refl eq_refl eq_refl)
             (JS.Error "Validation Failed") eq_refl).
  - exact (proj2 (createInternalIssue_stops_at_refused_comment
                    Examples.scoring_fails
                    (H := spec_issues Examples.empty_listing)
                    Examples.scenario_A Examples.draft_A tt "int-secret" 7
                    eq_refl eq_refl eq_refl)
             "https://api.github.com/comments/1"
             (JS.Error "Validation Failed") eq_refl eq_refl).
Defined.

Lemma createInternalIssue_call_order_scenario_A :
  createInternalIssue (H := spec_issues Examples.empty_listing)
    Examples.healthy Examples.scenario_A Examples.draft_A tt =
    (mirror_calls Examples.healthy "int-secret" Examples.draft_A 7
       [ListIssues (Some "github") (Some "securitylab") (Some "ext-secret") false]
       (Normal true),
     tt, Normal (Some 7)).
Proof.
  exact (createInternalIssue_call_order Examples.healthy
           (H := spec_issues Examples.empty_listing)
           Examples.scenario_A Examples.draft_A tt "int-secret" 7
           eq_refl eq_refl eq_refl healthy_accepts_comments).
Defined.

(** ** The list behind the banner *)

(** C9: with a repository [r] in the payload, [createInternalIssue] decides
    on the banner from the issue list of [r], the repository named in the
    payload, asked for with [GITHUB_TOKEN]: every listing it asks for is
    that one; the detector it calls asks for that listing, and answers with
    the negation of [isUserAlreadyParticipant] on the submitter's login and
    that list; and a creation the tracker accepts ends with the banner
    exactly when that answer is true. *)
Theorem first_submission_reads_payload_repository
    (W : World) `{IssuesModule} {S : Type}
    (payload : WebhookPayload) (draft : Issue) (r : PayloadRepository) (s : S) :
  repository payload = Some r ->
  let submissions :=
    getIssueList (Some (owner_login (owner r))) (Some (repo_name r))
      (env W !! "GITHUB_TOKEN") false in
  let decision :=
    match payload_issue_user_login payload with
    | Normal author =>
        Normal (negb (isUserAlreadyParticipant author submissions))
    | Throw e => Throw e
    end in
  Forall (fun e => is_listing e = true -> e = submissions_call W r)
    (events (createInternalIssue W payload draft s)) /\
  isFirstSubmission payload (env W !! "GITHUB_TOKEN") s =
    ([submissions_call W r], s, decision) /\
  (forall tok n,
     env W !! "INT_REPO_TOKEN" = Some tok ->
     JS.truthy_string tok = true ->
     issues_create W tok (internal_repo W).1 (internal_repo W).2
       (title draft) (body draft) (labels draft) = Normal n ->
     (forall text, comment_accepted W tok n text) ->
     createInternalIssue W payload draft s =
       (mirror_calls W tok draft n [submissions_call W r] decision,
        s, Normal (Some n))).
Proof.
  intros Hr submissions decision. subst submissions decision.
  assert (Hfirst : isFirstSubmission payload (env W !! "GITHUB_TOKEN") s =
            ([submissions_call W r], s,
             match payload_issue_user_login payload with
             | Normal author =>
                 Normal (negb (isUserAlreadyParticipant author
                          (getIssueList (Some (owner_login (owner r)))
                             (Some (repo_name r))
                             (env W !! "GITHUB_TOKEN") false)))
             | Throw e => Throw e
             end)).
  { now rewrite isFirstSubmission_result, Hr. }
  split; [|split].
  - apply createInternalIssue_emits; try discriminate.
    intros r' Hr' _. congruence.
  - exact Hfirst.
  - intros tok n Htok Htruthy Hcreate Haccept.
    destruct (Haccept COMMENT_TASK_LIST) as [u1 H1].
    destruct (Haccept COMMENT_SCORING) as [u2 H2].
    rewrite (createInternalIssue_calls W payload draft s tok Htok Htruthy).
    cbn zeta. rewrite Hcreate, H1, H2, Hfirst. reflexivity.
Qed.

(** Alice submitted before: the list of the event's repository holds an
    issue of hers, and the mirror gets no banner. *)
Lemma first_submission_reads_payload_repository_scenario_E :
  repository Examples.scenario_A = Some Examples.securitylab /\
  isFirstSubmission (H := spec_issues Examples.alice_returns)
    Examples.scenario_A (env Examples.healthy !! "GITHUB_TOKEN") tt =
    ([submissions_call Examples.healthy Examples.securitylab], tt,
     Normal false) /\
  createInternalIssue (H := spec_issues Examples.alice_returns)
    Examples.healthy Examples.scenario_A Examples.draft_A tt =
    (mirror_calls Examples.healthy "int-secret" Examples.draft_A 7
       [submissions_call Examples.healthy Examples.securitylab] (Normal false),
     tt, Normal (Some 7)).
Proof.
  split; [reflexivity|].
  destruct (first_submission_reads_payload_repository Examples.healthy
              (H := spec_issues Examples.alice_returns)
              Examples.scenario_A Examples.draft_A Examples.securitylab tt
              eq_refl) as (_ & Hdecision & Hbanner).
  split; [exact Hdecision|].
  exact (Hbanner "int-secret" 7 eq_refl eq_refl eq_refl
           healthy_accepts_comments).
Defined.

(** On an empty list of the event's repository the same event gets the
    banner. *)
Example first_submission_banner_on_empty_list :
  createInternalIssue (H := spec_issues Examples.empty_listing)
    Examples.healthy Examples.scenario_A Examples.draft_A tt =
    (mirror_calls Examples.healthy "int-secret" Examples.draft_A 7
       [submissions_call Examples.healthy Examples.securitylab] (Normal true),
     tt, Normal (Some 7)).
Proof. vm_compute. reflexivity. Qed.

(** ** Whole runs *)

Section Runs.
Context (W : World) `{IssuesModule} {S : Type}.

Lemma createInternalIssue_without_token
    (payload : WebhookPayload) (draft : Issue) (s : S) :
  JS.truthy_opt JS.truthy_string (env W !! "INT_REPO_TOKEN") = false ->
  createInternalIssue W payload draft s = ([], s, Normal None).
Proof. intros Htok. unfold createInternalIssue. now rewrite Htok. Qed.

Lemma credential_cases :
  JS.truthy_opt JS.truthy_string (env W !! "INT_REPO_TOKEN") = false \/
  exists tok, env W !! "INT_REPO_TOKEN" = Some tok /\
              JS.truthy_string tok = true.
Proof.
  destruct (env W !! "INT_REPO_TOKEN") as [tok|]; [|now left].
  destruct (JS.truthy_string tok) eqn:Ht; [right; eauto | now left].
Qed.

Lemma createInternalIssue_returns
    (payload : WebhookPayload) (draft : Issue) (s : S) :
  exists t ref, createInternalIssue W payload draft s = (t, s, Normal ref).
Proof.
  destruct credential_cases as [Hno|(tok & Htok & Ht)].
  - rewrite (createInternalIssue_without_token _ _ _ Hno). eauto.
  - rewrite (createInternalIssue_calls W payload draft s tok Htok Ht). eauto.
Qed.



(** X13: a run makes no call at all exactly when the classifier produces
    no draft. *)
Theorem run_silent_iff_no_draft (s : S) :
  events (run W s) = [] <->
  generateInternalIssueContentFromPayload (context_payload W) = None.
Proof.
  split.
  - intros Hev.
    destruct (generateInternalIssueContentFromPayload (context_payload W))
      as [d|] eqn:Hd; [|reflexivity].
    pose proof (run_first_call W s (ex_intro _ d Hd)) as Hhead.
    rewrite Hev in Hhead. discriminate.
  - intros Hd. rewrite run_unfolded, Hd. reflexivity.
Qed.

(** X14: once the classifier has produced a draft, no answer of the
    tracker makes [run] throw: a refused issue, a refused comment and the
    failing read of the submitter's login are all caught inside
    [createInternalIssue], and [run] returns.  The functions of [./issues]
    are taken not to throw. *)
Theorem run_contains_tracker_failures (s : S) :
  is_Some (generateInternalIssueContentFromPayload (context_payload W)) ->
  completion (run W s) = Normal tt /\ (run W s).1.2 = s.
Proof.
  intros [d Hd]. rewrite run_unfolded, Hd.
  unfold bind. rewrite checkDuplicates_result.
  destruct (match getIssueList _ _ _ _ with None => true | Some l => _ end);
    [split; reflexivity|].
  destruct (createInternalIssue_returns (context_payload W) d s)
    as (t & ref & ->).
  split; reflexivity.
Qed.

(** X15: when the internal list is available and
    [internalIssueAlreadyCreated] finds a reference other than 0, the run
    stops after the listing: nothing is created. *)
Theorem run_duplicate_found (s : S) (d : Issue) (l : list GitHubIssue) (ref : Z) :
  generateInternalIssueContentFromPayload (context_payload W) = Some d ->
  getIssueList (internal_repo W).1 (internal_repo W).2
    (env W !! "INT_REPO_TOKEN") false = Some l ->
  internalIssueAlreadyCreated (payload_issue_html_url (context_payload W)) l =
    Some ref ->
  ref <> 0 ->
  run W s = ([duplicate_check_call W], s, Normal tt).
Proof.
  intros Hd Hl Href Hne. rewrite run_unfolded, Hd.
  unfold bind. rewrite checkDuplicates_result, Hl, Href.
  cbn [JS.truthy_opt]. unfold JS.truthy_number.
  apply Z.eqb_neq in Hne. rewrite Hne. reflexivity.
Qed.

(** X16: when the duplicate check finds nothing, the run is that check
    followed by the calls of [createInternalIssue] on the draft, and by
    nothing else. *)
Theorem run_novel_issue (s : S) (d : Issue) :
  generateInternalIssueContentFromPayload (context_payload W) = Some d ->
  completion (checkDuplicates W (context_payload W) s) = Normal false ->
  run W s =
    (duplicate_check_call W ::
       events (createInternalIssue W (context_payload W) d s),
     s, Normal tt).
Proof.
  intros Hd Hdup. rewrite run_unfolded, Hd.
  unfold bind. rewrite checkDuplicates_result in *.
  remember (match getIssueList _ _ _ _ with None => true | Some l => _ end)
    as duplicate eqn:Heq. clear Heq.
  unfold completion in Hdup. cbn [snd] in Hdup. injection Hdup as ->.
  destruct (createInternalIssue_returns (context_payload W) d s)
    as (t & ref & ->).
  unfold ret, events. cbn [fst app]. now rewrite app_nil_r.
Qed.


(** X18: without the credential of the internal tracker (absent or empty)
    a run with a draft still asks for the internal listing, and that is its
    only call, whether a duplicate is found or not. *)
Theorem run_without_internal_credential (s : S) :
  JS.truthy_opt JS.truthy_string (env W !! "INT_REPO_TOKEN") = false ->
  run W s =
    (match generateInternalIssueContentFromPayload (context_payload W) with
     | Some _ => [duplicate_check_call W]
     | None => []
     end, s, Normal tt).
Proof.
  intros Hno. rewrite run_unfolded.
  destruct (generateInternalIssueContentFromPayload _) as [d|];
    [|reflexivity].
  unfold bind. rewrite checkDuplicates_result.
  destruct (match getIssueList _ _ _ _ with None => true | Some l => _ end);
    [reflexivity|].
  rewrite (createInternalIssue_without_token _ _ _ Hno). reflexivity.
Qed.

End Runs.

Lemma run_duplicate_found_scenario_B :
  generateInternalIssueContentFromPayload (context_payload Examples.healthy) =
    Some Examples.draft_A /\
  run (H := spec_issues Examples.internal_mirrors) Examples.healthy tt =
    ([duplicate_check_call Examples.healthy], tt, Normal tt).
Proof.
  split; [reflexivity|].
  assert (Hne : 5 <> 0) by discriminate.
  exact (run_duplicate_found Examples.healthy
           (H := spec_issues Examples.internal_mirrors)
           tt Examples.draft_A _ 5 eq_refl eq_refl eq_refl Hne).
Defined.

Lemma run_novel_issue_scenario_A :
  completion (checkDuplicates (H := spec_issues Examples.empty_listing)
                Examples.healthy (context_payload Examples.healthy) tt) =
    Normal false /\
  run (H := spec_issues Examples.empty_listing) Examples.healthy tt =
    (duplicate_check_call Examples.healthy ::
       events (createInternalIssue (H := spec_issues Examples.empty_listing)
                 Examples.healthy (context_payload Examples.healthy)
                 Examples.draft_A tt),
     tt, Normal tt).
Proof.
  split; [reflexivity|].
  exact (run_novel_issue Examples.healthy
           (H := spec_issues Examples.empty_listing)
           tt Examples.draft_A eq_refl eq_refl).
Defined.

Lemma run_without_internal_credential_scenario_D :
  env Examples.forked !! "INT_REPO_TOKEN" = None /\
  run (H := spec_issues Examples.empty_listing) Examples.forked tt =
    ([duplicate_check_call Examples.forked], tt, Normal tt).
Proof.
  split; [reflexivity|].
  exact (run_without_internal_credential Examples.forked
           (H := spec_issues Examples.empty_listing) tt eq_refl).
Defined.

(** Every comment is refused, and the run still returns. *)
Lemma run_contains_tracker_failures_comments_refused :
  is_Some (generateInternalIssueContentFromPayload
             (context_payload Examples.comments_fail)) /\
  completion (run (H := spec_issues Examples.empty_listing)
                Examples.comments_fail tt) = Normal tt.
Proof.
  assert (Hd : is_Some (generateInternalIssueContentFromPayload
                          (context_payload Examples.comments_fail)))
    by (eexists; reflexivity).
  split; [exact Hd|].
  exact (proj1 (run_contains_tracker_failures Examples.comments_fail
                  (H := spec_issues Examples.empty_listing) tt Hd)).
Defined.


(** When the input [internal_repo] names the repository of the event, the
    mirror and its comments are created there. *)
Example run_self_mirroring :
  existsb (writes_to Examples.securitylab)
    (events (run (H := spec_issues Examples.empty_listing)
               Examples.self_mirroring tt)) = true.
Proof. vm_compute. reflexivity. Qed.

(** An event without a bounty label: the run does nothing. *)
Example run_scenario_C :
  run (H := spec_issues Examples.empty_listing) Examples.not_a_bounty tt =
    ([], tt, Normal tt).
Proof. vm_compute. reflexivity. Qed.

(** The tracker refuses the new issue: no comment, no acknowledgement. *)
Example run_creation_refused :
  run (H := spec_issues Examples.empty_listing) Examples.creation_fails tt =
    ([ ListIssues (Some "github") (Some "securitylab-internal")
         (Some "int-secret") false;
       CreateIssue "int-secret" (Some "github") (Some "securitylab-internal")
         "[All For One] Heap overflow"
         (issue_body_text Examples.heap_overflow Examples.alice)
         ["All For One"; "bug"] ], tt, Normal tt).
Proof. vm_compute. reflexivity. Qed.

(** ** Trimming runs to the end *)

Lemma strip_prefix_length (p s s' : string) :
  JS.strip_prefix p s = Some s' ->
  String.length s = (String.length p + String.length s')%nat.
Proof.
  revert s. induction p as [|a p IH]; intros s; simpl.
  - intros H. now injection H as ->.
  - destruct s as [|b s]; [discriminate|].
    destruct (Ascii.eqb a b); [|discriminate].
    intros H. simpl. now rewrite (IH s H).
Qed.

Lemma strip_one_shorter (ws : list string) (s s' : string) :
  Forall (fun w => w <> "") ws ->
  JS.strip_one ws s = Some s' ->
  (String.length s' < String.length s)%nat.
Proof.
  induction 1 as [|w ws Hw _ IH]; simpl; [discriminate|].
  destruct (JS.strip_prefix w s) as [rest|] eqn:Hp; [|exact IH].
  intros H. injection H as ->.
  apply strip_prefix_length in Hp. destruct w; [contradiction|].
  simpl in Hp. lia.
Qed.

(** With as much fuel as the string is long, nothing is left to strip. *)
Lemma strip_leading_done (ws : list string) (fuel : nat) : forall s,
  Forall (fun w => w <> "") ws ->
  (String.length s <= fuel)%nat ->
  JS.strip_one ws (JS.strip_leading ws fuel s) = None.
Proof.
  induction fuel as [|fuel IH]; intros s Hws Hlen; simpl.
  - destruct (JS.strip_one ws s) as [s'|] eqn:Hs; [|reflexivity].
    apply (strip_one_shorter ws s s' Hws) in Hs. lia.
  - destruct (JS.strip_one ws s) as [s'|] eqn:Hs; [|exact Hs].
    apply IH; [exact Hws|].
    apply (strip_one_shorter ws s s' Hws) in Hs. lia.
Qed.

Lemma white_space_not_empty : Forall (fun w => w <> "") JS.white_space.
Proof. repeat constructor; discriminate. Qed.

Lemma rev_string_length (s : string) :
  String.length (JS.rev_string s) = String.length s.
Proof.
  unfold JS.rev_string.
  assert (Hl : forall l, String.length (string_of_list_ascii l) = List.length l).
  { induction l as [|a l IH]; simpl; [reflexivity | now rewrite IH]. }
  assert (Hs : forall t, List.length (list_ascii_of_string t) = String.length t).
  { induction t as [|a t IH]; simpl; [reflexivity | now rewrite IH]. }
  now rewrite Hl, length_rev, Hs.
Qed.

Lemma rev_string_involutive (s : string) : JS.rev_string (JS.rev_string s) = s.
Proof.
  unfold JS.rev_string.
  now rewrite list_ascii_of_string_of_list_ascii, rev_involutive,
    string_of_list_ascii_of_string.
Qed.

(** [trimStart] leaves no white space in front, [trimEnd] none behind. *)
Lemma trimStart_done (s : string) :
  JS.strip_one JS.white_space (JS.trimStart s) = None.
Proof.
  apply strip_leading_done; [apply white_space_not_empty | lia].
Qed.

Lemma trimEnd_done (s : string) :
  JS.strip_one (map JS.rev_string JS.white_space)
    (JS.rev_string (JS.trimEnd s)) = None.
Proof.
  unfold JS.trimEnd. rewrite rev_string_involutive.
  apply strip_leading_done; [|rewrite rev_string_length; lia].
  repeat constructor; discriminate.
Qed.

Example trim_padded :
  JS.trim "  github/securitylab-internal " = "github/securitylab-internal".
Proof. reflexivity. Qed.

Example trim_inner_space_kept : JS.trim " a  b " = "a  b".
Proof. reflexivity. Qed.

Example trim_line_ends :
  JS.trim ("true" +:+ String "013" (String "010" "")) = "true".
Proof. reflexivity. Qed.

Example trim_no_break_space :
  JS.trim (String "194" (String "160" "x")) = "x".
Proof. reflexivity. Qed.
